(** * Multi-agent credit analysis: the decision pipeline

    A shallow embedding of the scoring engine ([RiskAnalystAgent]), the
    quality gate ([QualityAssuranceAgent]), the shared retry logic
    ([BaseAgent]) and the orchestration graph ([CreditAnalysisGraph]),
    followed by the properties established about them.

    Modelling conventions.
    - A Python [float] is an exact rational ([Q]): the scores are sums of
      decimal constants, and the thresholds compare them with decimal
      constants.  NaN and the infinities are outside the model.
    - A Python [int] is a [Z].
    - A Python [str] is a [string] whose characters are the code points
      below 256 (Latin-1), which covers the Portuguese texts of the program;
      the literals of the source are decoded from UTF-8 by [Py.lit].
    - A [datetime] is a number of microseconds ([Z]).
    - The mutable [AgentState] is threaded explicitly; an exception leaves
      the mutations made before it in place, as in Python.
    - What lies outside the repository (the language model, the registry and
      search clients, the document tools, the clock, float formatting) is an
      oracle of the environment [Env], indexed by the number of external
      interactions made so far. *)

From Stdlib Require Import ZArith QArith Qminmax List String Ascii Bool Lia Lqa.
From Stdlib Require Import DecimalString.
Import ListNotations.
Local Open Scope string_scope.

(** ** Python builtins used by the program *)

Module Py.

(** Upper-case letters of Latin-1: A-Z, and 192-222 except the
    multiplication sign 215. *)
Definition is_upper (c : ascii) : bool :=
  let n := nat_of_ascii c in
  ((65 <=? n) && (n <=? 90))%nat
  || ((192 <=? n) && (n <=? 222) && negb (n =? 215))%nat.

Definition lower_char (c : ascii) : ascii :=
  if is_upper c then ascii_of_nat (nat_of_ascii c + 32) else c.

(** [s.lower()] *)
Fixpoint lower (s : string) : string :=
  match s with
  | EmptyString => EmptyString
  | String c s' => String (lower_char c) (lower s')
  end.

(** [sub in s] *)
Fixpoint contains (sub s : string) : bool :=
  if String.prefix sub s then true
  else match s with
       | EmptyString => false
       | String _ s' => contains sub s'
       end.

(** [any(k in s for k in keywords)] *)
Definition contains_any (keywords : list string) (s : string) : bool :=
  existsb (fun k => contains k s) keywords.

(** [str.isdigit] on one character: 0-9 and the superscript digits. *)
Definition isdigit (c : ascii) : bool :=
  let n := nat_of_ascii c in
  ((48 <=? n) && (n <=? 57))%nat
  || (n =? 178)%nat || (n =? 179)%nat || (n =? 185)%nat.

(** [''.join(filter(p, s))] *)
Fixpoint filter (p : ascii -> bool) (s : string) : string :=
  match s with
  | EmptyString => EmptyString
  | String c s' => if p c then String c (filter p s') else filter p s'
  end.

(** [s.count(c)] for a one-character pattern *)
Fixpoint count (c : ascii) (s : string) : nat :=
  match s with
  | EmptyString => 0
  | String d s' => (if Ascii.eqb c d then 1 else 0) + count c s'
  end.

(** [str(n)] of an integer *)
Definition str_int (z : Z) : string := NilZero.string_of_int (Z.to_int z).

(** Truth value of a string. *)
Definition truthy_str (s : string) : bool :=
  match s with EmptyString => false | _ => true end.

(** Truth value of a float ([0.0] is false). *)
Definition truthy_float (x : Q) : bool := negb (Qeq_bool x 0).

(** The format specifications applied to floats: [{x}], and [{x:.1f}] or
    [{x:.2f}]. *)
Inductive format_spec : Type :=
| repr
| fixed (digits : nat).

(** Exceptions that the modelled code can meet. *)
Inductive exn : Type :=
| TypeError (msg : string)
| ValidationError (msg : string)
| ExternalError (msg : string)
| RecursionError
| GraphRecursionError.

(** [str(e)] *)
Definition str_exn (e : exn) : string :=
  match e with
  | TypeError msg | ValidationError msg | ExternalError msg => msg
  | RecursionError => "maximum recursion depth exceeded"
  | GraphRecursionError => "Recursion limit reached without hitting a stop condition"
  end.

(** The values a consistency check can take: the checks are meant to be
    booleans, but [x or (a and b and c)] returns the operand that decided
    it. *)
Inductive value : Type :=
| VBool (b : bool)
| VNone
| VStr (s : string).

Definition truthy (v : value) : bool :=
  match v with
  | VBool b => b
  | VNone => false
  | VStr s => truthy_str s
  end.

(** An insertion-ordered [dict] with string keys. *)
Definition dict (V : Type) : Type := list (string * V).

Fixpoint get {V} (d : dict V) (k : string) (default : V) : V :=
  match d with
  | [] => default
  | (k', v) :: d' => if String.eqb k k' then v else get d' k default
  end.

(** [d[k] = v]: an existing key keeps its position. *)
Fixpoint set {V} (d : dict V) (k : string) (v : V) : dict V :=
  match d with
  | [] => [(k, v)]
  | (k', v') :: d' =>
      if String.eqb k k' then (k', v) :: d' else (k', v') :: set d' k v
  end.

Definition values {V} (d : dict V) : list V := map snd d.

(** A literal of the source, written here in UTF-8, as the string of its
    Latin-1 code points: the two-byte sequences led by 194 and 195 are
    decoded.  [lead] is the leading byte read and not yet decoded. *)
Fixpoint lit_from (lead : option ascii) (s : string) : string :=
  match s with
  | EmptyString =>
      match lead with
      | Some c => String c EmptyString
      | None => EmptyString
      end
  | String d s' =>
      match lead with
      | Some c =>
          String (if Ascii.eqb c "195" then ascii_of_nat (nat_of_ascii d + 64) else d)
                 (lit_from None s')
      | None =>
          if Ascii.eqb d "194" || Ascii.eqb d "195" then lit_from (Some d) s'
          else String d (lit_from None s')
      end
  end.

Definition lit (s : string) : string := lit_from None s.

(** Comparisons of floats, with the operands in the order of the source. *)
Definition ge (a b : Q) : bool := Qle_bool b a.
Definition le (a b : Q) : bool := Qle_bool a b.
Definition lt (a b : Q) : bool := negb (Qle_bool b a).

(** [float(n)] of an integer, and [len] of a list as a float operand. *)
Definition float (z : Z) : Q := inject_Z z.
Definition len {A} (l : list A) : Z := Z.of_nat (List.length l).

(** [sum(l)] of floats: the additions start from [0], left to right. *)
Definition sum (l : list Q) : Q := fold_left Qplus l 0.

(** [not l] for a list. *)
Definition is_empty {A} (l : list A) : bool :=
  match l with [] => true | _ => false end.

End Py.

(** ** models/schemas.py *)

Inductive DocumentType : Type :=
| BALANCE_SHEET | INCOME_STATEMENT | CASH_FLOW | OTHER.

Inductive RiskDecision : Type := APPROVE | REVIEW | REJECT.

Definition RiskDecision_value (d : RiskDecision) : string :=
  match d with
  | APPROVE => "approve"
  | REVIEW => "review"
  | REJECT => "reject"
  end.

Inductive QualityStatus : Type := APPROVED | REJECTED.

Definition QualityStatus_value (s : QualityStatus) : string :=
  match s with
  | APPROVED => "approved"
  | REJECTED => "rejected"
  end.

Definition datetime : Type := Z.

(** The fields of [CompanyData] that only feed prompts (legal nature,
    activity, capital, address, special situation) are left out. *)
Record CompanyData : Type := {
  company_cnpj : string;
  corporate_name : string;
  trade_name : option string;
  registration_date : option datetime;
  legal_situation : option string
}.

Record WebSearchResult : Type := {
  url : string;
  title : string;
  content : string;
  relevance_score : Q;
  search_type : string
}.

Record FinancialKPI : Type := {
  revenue : option Q;
  gross_profit : option Q;
  operating_profit : option Q;
  net_profit : option Q;
  total_assets : option Q;
  total_liabilities : option Q;
  equity : option Q;
  current_assets : option Q;
  current_liabilities : option Q;
  debt_to_equity : option Q;
  roa : option Q;
  roe : option Q;
  period : string
}.

Record DocumentAnalysis : Type := {
  document_type : DocumentType;
  financial_kpis : list FinancialKPI;
  extracted_text_sample : string;
  confidence_score : Q
}.

Record RiskAnalysis : Type := {
  financial_health_score : Q;
  non_financial_risk_score : Q;
  overall_risk_score : Q;
  positive_factors : list string;
  negative_factors : list string;
  recommendation : RiskDecision;
  analysis_text : string;
  confidence_level : Q
}.

Record QualityValidation : Type := {
  status : QualityStatus;
  consistency_checks : Py.dict bool;
  feedback : option string;
  validation_notes : list string
}.

(** An uploaded document, as the dictionaries of [documents] carry it. *)
Record Document : Type := {
  filename : string;
  doc_content : string
}.

Record AgentState : Type := {
  request_id : string;
  cnpj : string;
  documents : list Document;
  company_data : option CompanyData;
  web_search_results : list WebSearchResult;
  document_analysis : list DocumentAnalysis;
  risk_analysis : option RiskAnalysis;
  quality_validation : option QualityValidation;
  retry_count : Z;
  max_retries : Z;
  processing_notes : list string
}.

(** [AgentState(request_id=..., cnpj=..., documents=...)], the other fields
    at their defaults. *)
Definition new_AgentState (rid c : string) (docs : list Document) : AgentState :=
  {| request_id := rid; cnpj := c; documents := docs;
     company_data := None; web_search_results := [];
     document_analysis := []; risk_analysis := None;
     quality_validation := None; retry_count := 0; max_retries := 3;
     processing_notes := [] |}.

(** Field assignments. *)
Definition set_company_data (v : option CompanyData) (s : AgentState) : AgentState :=
  {| request_id := request_id s; cnpj := cnpj s; documents := documents s;
     company_data := v; web_search_results := web_search_results s;
     document_analysis := document_analysis s; risk_analysis := risk_analysis s;
     quality_validation := quality_validation s; retry_count := retry_count s;
     max_retries := max_retries s; processing_notes := processing_notes s |}.

Definition set_web_search_results (v : list WebSearchResult) (s : AgentState) : AgentState :=
  {| request_id := request_id s; cnpj := cnpj s; documents := documents s;
     company_data := company_data s; web_search_results := v;
     document_analysis := document_analysis s; risk_analysis := risk_analysis s;
     quality_validation := quality_validation s; retry_count := retry_count s;
     max_retries := max_retries s; processing_notes := processing_notes s |}.

Definition set_document_analysis (v : list DocumentAnalysis) (s : AgentState) : AgentState :=
  {| request_id := request_id s; cnpj := cnpj s; documents := documents s;
     company_data := company_data s; web_search_results := web_search_results s;
     document_analysis := v; risk_analysis := risk_analysis s;
     quality_validation := quality_validation s; retry_count := retry_count s;
     max_retries := max_retries s; processing_notes := processing_notes s |}.

Definition set_risk_analysis (v : option RiskAnalysis) (s : AgentState) : AgentState :=
  {| request_id := request_id s; cnpj := cnpj s; documents := documents s;
     company_data := company_data s; web_search_results := web_search_results s;
     document_analysis := document_analysis s; risk_analysis := v;
     quality_validation := quality_validation s; retry_count := retry_count s;
     max_retries := max_retries s; processing_notes := processing_notes s |}.

Definition set_quality_validation (v : option QualityValidation) (s : AgentState) : AgentState :=
  {| request_id := request_id s; cnpj := cnpj s; documents := documents s;
     company_data := company_data s; web_search_results := web_search_results s;
     document_analysis := document_analysis s; risk_analysis := risk_analysis s;
     quality_validation := v; retry_count := retry_count s;
     max_retries := max_retries s; processing_notes := processing_notes s |}.

Definition set_retry_count (v : Z) (s : AgentState) : AgentState :=
  {| request_id := request_id s; cnpj := cnpj s; documents := documents s;
     company_data := company_data s; web_search_results := web_search_results s;
     document_analysis := document_analysis s; risk_analysis := risk_analysis s;
     quality_validation := quality_validation s; retry_count := v;
     max_retries := max_retries s; processing_notes := processing_notes s |}.

Definition set_processing_notes (v : list string) (s : AgentState) : AgentState :=
  {| request_id := request_id s; cnpj := cnpj s; documents := documents s;
     company_data := company_data s; web_search_results := web_search_results s;
     document_analysis := document_analysis s; risk_analysis := risk_analysis s;
     quality_validation := quality_validation s; retry_count := retry_count s;
     max_retries := max_retries s; processing_notes := v |}.

(** ** The environment and the state-and-exception monad *)

(** Outcome of a call: a value or a raised exception. *)
Inductive result (A : Type) : Type :=
| Ok (a : A)
| Raise (e : Py.exn).
Arguments Ok {A} a.
Arguments Raise {A} e.

(** The collaborators outside the repository.  Each oracle is indexed by the
    number of external interactions already made, so that two calls may
    answer differently. *)
Record Env : Type := {
  format_float : Py.format_spec -> Q -> string;
  now : nat -> datetime;
  llm_ainvoke : nat -> option string;
  cnpj_client_get_company_data : nat -> string -> result (option CompanyData);
  web_search_tool_search : nat -> string -> string -> result (list WebSearchResult);
  vector_store_clear : nat -> result unit;
  document_analyst_analyze_document : nat -> Document -> option DocumentAnalysis
}.

(** The analysis record together with the count of external interactions. *)
Record World : Type := {
  w_state : AgentState;
  w_ticks : nat
}.

Definition M (A : Type) : Type := World -> result A * World.

Definition ret {A} (a : A) : M A := fun w => (Ok a, w).

Definition bind {A B} (m : M A) (k : A -> M B) : M B :=
  fun w => match m w with
           | (Ok a, w') => k a w'
           | (Raise e, w') => (Raise e, w')
           end.

Definition raise {A} (e : Py.exn) : M A := fun w => (Raise e, w).

(** [try: m except Exception as e: handler(e)] *)
Definition try_except {A} (m : M A) (handler : Py.exn -> M A) : M A :=
  fun w => match m w with
           | (Ok a, w') => (Ok a, w')
           | (Raise e, w') => handler e w'
           end.

Definition get_state : M AgentState := fun w => (Ok (w_state w), w).

Definition modify (f : AgentState -> AgentState) : M unit :=
  fun w => (Ok tt, {| w_state := f (w_state w); w_ticks := w_ticks w |}).

(** One external interaction: returns its index and advances the count. *)
Definition tick : M nat :=
  fun w => (Ok (w_ticks w), {| w_state := w_state w; w_ticks := S (w_ticks w) |}).

Definition get_ticks : M nat := fun w => (Ok (w_ticks w), w).

Declare Scope py_scope.
Delimit Scope py_scope with py.
Notation "x <- m ;; k" := (bind m (fun x => k))
  (at level 61, m at next level, right associativity) : py_scope.
Notation "m ;; k" := (bind m (fun _ => k))
  (at level 61, right associativity) : py_scope.
Local Open Scope py_scope.

(** ** agents/base_agent.py *)

Module BaseAgent.

Definition add_processing_note (name note : string) : M unit :=
  modify (fun s =>
    set_processing_notes (processing_notes s ++ ["[" ++ name ++ "] " ++ note]) s).

Definition should_retry (state : AgentState) : bool :=
  (retry_count state <? max_retries state)%Z.

Definition increment_retry (name : string) : M unit :=
  modify (fun s => set_retry_count (retry_count s + 1)%Z s) ;;
  s <- get_state ;;
  add_processing_note name
    ("Tentativa " ++ Py.str_int (retry_count s) ++ "/" ++ Py.str_int (max_retries s)).

(** [handle_error]; [execute] is the method it calls back.  *)
Definition handle_error (name : string) (execute : M unit) (error : Py.exn) : M unit :=
  add_processing_note name ("Erro no agente " ++ name ++ ": " ++ Py.str_exn error) ;;
  s <- get_state ;;
  if should_retry s then increment_retry name ;; execute
  else raise error.

(** [execute] of an agent whose [try] block is [body]: the recursion through
    [handle_error] is unrolled [depth] times. *)
Fixpoint execute_depth (name : string) (body : M unit) (depth : nat) : M unit :=
  try_except body
    (handle_error name
       match depth with
       | O => raise Py.RecursionError
       | S depth' => execute_depth name body depth'
       end).

(** The retries still allowed by the counters of a state. *)
Definition retry_budget (state : AgentState) : nat :=
  Z.to_nat (max_retries state - retry_count state).

(** [execute]: each recursive call follows an increment of [retry_count],
    so the depth of the recursion is at most the retry budget at entry. *)
Definition execute (name : string) (body : M unit) : M unit :=
  fun w => execute_depth name body (retry_budget (w_state w)) w.

End BaseAgent.

(** Construction of a [RiskAnalysis]: the field constraints ([ge], [le]) are
    validated, and a violation raises. *)
Definition new_RiskAnalysis (r : RiskAnalysis) : M RiskAnalysis :=
  if Py.le 0 (financial_health_score r) && Py.le (financial_health_score r) 10
     && Py.le 0 (non_financial_risk_score r) && Py.le (non_financial_risk_score r) 10
     && Py.le 0 (overall_risk_score r) && Py.le (overall_risk_score r) 10
     && Py.le 0 (confidence_level r) && Py.le (confidence_level r) 1
  then ret r
  else raise (Py.ValidationError "validation error for RiskAnalysis").

(** ** agents/risk_analyst.py *)

Module RiskAnalystAgent.

Definition name : string := "RiskAnalyst".

Inductive level : Type := excellent | good | acceptable | poor.
Inductive indicator : Type := k_roa | k_roe | k_debt_to_equity.

(** [self.financial_thresholds] *)
Definition financial_thresholds (l : level) (k : indicator) : Q :=
  match l, k with
  | excellent, k_roa => 15 | excellent, k_roe => 20 | excellent, k_debt_to_equity => 0.5
  | good, k_roa => 10 | good, k_roe => 15 | good, k_debt_to_equity => 1.0
  | acceptable, k_roa => 5 | acceptable, k_roe => 10 | acceptable, k_debt_to_equity => 2.0
  | poor, k_roa => 0 | poor, k_roe => 0 | poor, k_debt_to_equity => 3.0
  end.

(** The dictionary [{'positive': ..., 'negative': ...}] a scorer returns. *)
Record Factors : Type := {
  positive : list string;
  negative : list string
}.

(** The local variables [score], [positive_factors], [negative_factors] of a
    scorer. *)
Record Locals : Type := {
  l_score : Q;
  l_positive : list string;
  l_negative : list string
}.

(** [score += d; positive_factors.append(f)] *)
Definition credit (d : Q) (f : string) (l : Locals) : Locals :=
  {| l_score := l_score l + d; l_positive := l_positive l ++ [f];
     l_negative := l_negative l |}.

(** [score -= d; negative_factors.append(f)] *)
Definition debit (d : Q) (f : string) (l : Locals) : Locals :=
  {| l_score := l_score l - d; l_positive := l_positive l;
     l_negative := l_negative l ++ [f] |}.

(** [positive_factors.append(f)] *)
Definition note_positive (f : string) (l : Locals) : Locals :=
  {| l_score := l_score l; l_positive := l_positive l ++ [f];
     l_negative := l_negative l |}.

(** [score = max(0, min(10, score))] *)
Definition clamp (score : Q) : Q := Qmax 0 (Qmin 10 score).

Definition finish (l : Locals) : Q * Factors :=
  (clamp (l_score l), {| positive := l_positive l; negative := l_negative l |}).

Section Scorers.

Variable env : Env.

Let fmt := format_float env.

(** The four blocks of [_analyze_financial_health] applied to the latest
    indicator set. *)

(** Análise de rentabilidade *)
Definition analyze_roa (latest_kpi : FinancialKPI) (l : Locals) : Locals :=
  match roa latest_kpi with
  | Some r =>
      if Py.ge r (financial_thresholds excellent k_roa) then
        credit 1.5 (Py.lit "Excelente ROA: " ++ fmt Py.repr r ++ "%") l
      else if Py.ge r (financial_thresholds good k_roa) then
        credit 1.0 (Py.lit "Bom ROA: " ++ fmt Py.repr r ++ "%") l
      else if Py.ge r (financial_thresholds acceptable k_roa) then
        credit 0.5 (Py.lit "ROA aceitável: " ++ fmt Py.repr r ++ "%") l
      else
        debit 1.0 (Py.lit "ROA baixo: " ++ fmt Py.repr r ++ "%") l
  | None => l
  end.

(** Análise de endividamento *)
Definition analyze_debt (latest_kpi : FinancialKPI) (l : Locals) : Locals :=
  match debt_to_equity latest_kpi with
  | Some d =>
      if Py.le d (financial_thresholds excellent k_debt_to_equity) then
        credit 1.0 (Py.lit "Baixo endividamento: " ++ fmt Py.repr d) l
      else if Py.le d (financial_thresholds good k_debt_to_equity) then
        credit 0.5 (Py.lit "Endividamento controlado: " ++ fmt Py.repr d) l
      else if Py.le d (financial_thresholds acceptable k_debt_to_equity) then
        l
      else
        debit 1.5 (Py.lit "Alto endividamento: " ++ fmt Py.repr d) l
  | None => l
  end.

(** Análise de liquidez: the guard is the truth value of both operands. *)
Definition analyze_liquidity (latest_kpi : FinancialKPI) (l : Locals) : Locals :=
  match current_assets latest_kpi, current_liabilities latest_kpi with
  | Some assets, Some liabilities =>
      if Py.truthy_float assets && Py.truthy_float liabilities then
        let current_ratio := assets / liabilities in
        if Py.ge current_ratio 1.5 then
          credit 0.8 (Py.lit "Boa liquidez corrente: " ++ fmt (Py.fixed 2) current_ratio) l
        else if Py.ge current_ratio 1.0 then
          credit 0.3 (Py.lit "Liquidez adequada: " ++ fmt (Py.fixed 2) current_ratio) l
        else
          debit 1.0 (Py.lit "Liquidez insuficiente: " ++ fmt (Py.fixed 2) current_ratio) l
      else l
  | _, _ => l
  end.

(** Análise de lucratividade *)
Definition analyze_margin (latest_kpi : FinancialKPI) (l : Locals) : Locals :=
  match net_profit latest_kpi, revenue latest_kpi with
  | Some profit, Some rev =>
      if Py.truthy_float profit && Py.truthy_float rev then
        let margin := (profit / rev) * 100 in
        if Py.ge margin 10 then
          credit 1.0 (Py.lit "Alta margem líquida: " ++ fmt (Py.fixed 1) margin ++ "%") l
        else if Py.ge margin 5 then
          credit 0.5 (Py.lit "Margem líquida adequada: " ++ fmt (Py.fixed 1) margin ++ "%") l
        else if Py.lt margin 0 then
          debit 1.5 (Py.lit "Empresa com prejuízo: " ++ fmt (Py.fixed 1) margin ++ "%") l
        else l
      else l
  | _, _ => l
  end.

(** The four blocks in the order of the source, before the final clamp. *)
Definition analyze_latest_kpi (latest_kpi : FinancialKPI) (l : Locals) : Locals :=
  analyze_margin latest_kpi
    (analyze_liquidity latest_kpi
      (analyze_debt latest_kpi
        (analyze_roa latest_kpi l))).

Definition _analyze_financial_health (state : AgentState) : Q * Factors :=
  let l := {| l_score := 5.0; l_positive := []; l_negative := [] |} in
  if Py.is_empty (document_analysis state) then
    (3.0, {| positive := l_positive l;
             negative := l_negative l ++ [Py.lit "Nenhum documento financeiro analisado"] |})
  else
    let all_kpis := flat_map financial_kpis (document_analysis state) in
    match all_kpis with
    | [] =>
        (3.0, {| positive := l_positive l;
                 negative := l_negative l ++ [Py.lit "Nenhum KPI financeiro extraído"] |})
    | first :: _ =>
        let latest_kpi := List.last all_kpis first in
        finish (analyze_latest_kpi latest_kpi l)
    end.

(** The keyword lists of the web-result scan. *)
Definition legal_keywords : list string :=
  map Py.lit ["processo"; "execução"; "falência"; "recuperação judicial"; "dívida"].
Definition negative_keywords : list string :=
  map Py.lit ["fraude"; "irregularidade"; "multa"; "penalidade"; "investigação"].
Definition positive_keywords : list string :=
  map Py.lit ["prêmio"; "expansão"; "crescimento"; "inovação"; "sucesso"].

(** The counters of the scan. *)
Record Counters : Type := {
  legal_issues : Z;
  negative_news : Z;
  positive_mentions : Z
}.

(** One iteration of [for result in state.web_search_results]. *)
Definition scan_result (c : Counters) (result : WebSearchResult) : Counters :=
  let content_lower := Py.lower (content result) in
  {| legal_issues :=
       if Py.contains_any legal_keywords content_lower
       then (legal_issues c + 1)%Z else legal_issues c;
     negative_news :=
       if Py.contains_any negative_keywords content_lower
       then (negative_news c + 1)%Z else negative_news c;
     positive_mentions :=
       if Py.contains_any positive_keywords content_lower
       then (positive_mentions c + 1)%Z else positive_mentions c |}.

Definition scan_results (results : list WebSearchResult) : Counters :=
  fold_left scan_result results
    {| legal_issues := 0; negative_news := 0; positive_mentions := 0 |}.

(** [(datetime.now() - registration_date).days / 365]: the days of a
    difference are its floor in whole days. *)
Definition microseconds_per_day : Z := 86400000000.

Definition timedelta_days (delta : Z) : Z := (delta / microseconds_per_day)%Z.

Definition years_operating_at (now_ registration : datetime) : Q :=
  Py.float (timedelta_days (now_ - registration)) / 365.

(** Situação cadastral *)
Definition analyze_legal_situation (company : CompanyData) (l : Locals) : Locals :=
  match legal_situation company with
  | Some situation =>
      if Py.truthy_str situation && Py.contains (Py.lit "ativa") (Py.lower situation) then
        note_positive (Py.lit "Empresa com situação cadastral ativa") l
      else
        debit 2.0 (Py.lit "Situação cadastral irregular: " ++ situation) l
  | None =>
      debit 2.0 (Py.lit "Situação cadastral irregular: " ++ "None") l
  end.

(** Tempo de operação *)
Definition analyze_longevity (now_ : datetime) (company : CompanyData) (l : Locals) : Locals :=
  match registration_date company with
  | Some registration =>
      let years_operating := years_operating_at now_ registration in
      if Py.ge years_operating 5 then
        credit 1.0 (Py.lit "Empresa estabelecida: " ++ fmt (Py.fixed 1) years_operating
                    ++ Py.lit " anos de operação") l
      else if Py.ge years_operating 2 then
        note_positive (Py.lit "Empresa com " ++ fmt (Py.fixed 1) years_operating
                       ++ Py.lit " anos de operação") l
      else
        debit 0.5 (Py.lit "Empresa recente: " ++ fmt (Py.fixed 1) years_operating
                   ++ Py.lit " anos") l
  | None => l
  end.

(** Análise de dados cadastrais *)
Definition analyze_company (now_ : datetime) (state : AgentState) (l : Locals) : Locals :=
  match company_data state with
  | Some company => analyze_longevity now_ company (analyze_legal_situation company l)
  | None => l
  end.

(** The penalties and the bonus that follow the scan. *)
Definition analyze_web (c : Counters) (l : Locals) : Locals :=
  let l :=
    if (legal_issues c >? 0)%Z then
      debit (Qmin (Py.float (legal_issues c) * 1.5) 3.0)
            (Py.lit "Encontrados " ++ Py.str_int (legal_issues c)
             ++ Py.lit " indicadores de questões legais") l
    else l in
  let l :=
    if (negative_news c >? 0)%Z then
      debit (Qmin (Py.float (negative_news c) * 1.0) 2.0)
            (Py.lit "Encontradas " ++ Py.str_int (negative_news c)
             ++ Py.lit " menções negativas na mídia") l
    else l in
  if (positive_mentions c >? 0)%Z then
    credit (Qmin (Py.float (positive_mentions c) * 0.5) 1.0)
           (Py.lit "Encontradas " ++ Py.str_int (positive_mentions c)
            ++ Py.lit " menções positivas") l
  else l.

(** The registry block, the scan and its penalties, before the final clamp. *)
Definition analyze_evidence (now_ : datetime) (state : AgentState) (l : Locals) : Locals :=
  analyze_web (scan_results (web_search_results state))
    (analyze_company now_ state l).

(** [_analyze_non_financial_risks]; [now_] is the value [datetime.now()]
    returns during the call. *)
Definition _analyze_non_financial_risks (now_ : datetime) (state : AgentState)
  : Q * Factors :=
  let l := {| l_score := 7.0; l_positive := []; l_negative := [] |} in
  finish (analyze_evidence now_ state l).

End Scorers.

Definition _determine_recommendation
  (overall_score financial_score non_financial_score : Q) : RiskDecision :=
  if Py.le financial_score 2.0 then REJECT
  else if Py.le non_financial_score 3.0 then REJECT
  else if Py.ge overall_score 7.5 then APPROVE
  else if Py.ge overall_score 5.5 then REVIEW
  else REJECT.

(** [_generate_detailed_analysis]: the reply of the language model, or the
    templated sentence when the call fails.  The prompt only reaches the
    model. *)
Definition _generate_detailed_analysis (env : Env)
  (financial_score non_financial_score : Q) : M string :=
  t <- tick ;;
  match llm_ainvoke env t with
  | Some response_content => ret response_content
  | None =>
      ret (Py.lit "Análise automática: Score financeiro "
           ++ format_float env (Py.fixed 1) financial_score
           ++ Py.lit "/10, Score não-financeiro "
           ++ format_float env (Py.fixed 1) non_financial_score
           ++ Py.lit "/10. Recomendação baseada nos indicadores calculados.")
  end.

Definition _calculate_confidence_level (state : AgentState) : Q :=
  let confidence := 0.0 in
  let confidence :=
    match company_data state with
    | Some _ => confidence + 0.2
    | None => confidence
    end in
  let confidence :=
    if Py.is_empty (document_analysis state) then confidence
    else
      let doc_confidence :=
        Py.sum (map confidence_score (document_analysis state))
        / Py.float (Py.len (document_analysis state)) in
      confidence + doc_confidence * 0.5 in
  let confidence :=
    if Py.is_empty (web_search_results state) then confidence
    else confidence + Qmin (Py.float (Py.len (web_search_results state)) / 10) 0.2 in
  let total_kpis :=
    fold_left Z.add (map (fun doc => Py.len (financial_kpis doc)) (document_analysis state)) 0%Z in
  let confidence :=
    if (total_kpis >? 0)%Z then confidence + Qmin (Py.float total_kpis / 5) 0.1
    else confidence in
  Qmin confidence 1.0.

(** The [try] block of [execute]. *)
Definition body (env : Env) : M unit :=
  BaseAgent.add_processing_note name (Py.lit "Iniciando análise de risco consolidada") ;;
  state <- get_state ;;
  let (financial_score, financial_factors) := _analyze_financial_health env state in
  t <- get_ticks ;;
  let (non_financial_score, non_financial_factors) :=
    _analyze_non_financial_risks env (now env t) state in
  let overall_score := financial_score * 0.7 + non_financial_score * 0.3 in
  let recommendation :=
    _determine_recommendation overall_score financial_score non_financial_score in
  analysis_text_ <- _generate_detailed_analysis env financial_score non_financial_score ;;
  let confidence := _calculate_confidence_level state in
  risk_analysis_ <- new_RiskAnalysis
    {| financial_health_score := financial_score;
       non_financial_risk_score := non_financial_score;
       overall_risk_score := overall_score;
       positive_factors := positive financial_factors ++ positive non_financial_factors;
       negative_factors := negative financial_factors ++ negative non_financial_factors;
       recommendation := recommendation;
       analysis_text := analysis_text_;
       confidence_level := confidence |} ;;
  modify (set_risk_analysis (Some risk_analysis_)) ;;
  BaseAgent.add_processing_note name
    (Py.lit "Análise concluída: " ++ RiskDecision_value recommendation
     ++ " (score: " ++ format_float env (Py.fixed 1) overall_score ++ ")").

Definition execute (env : Env) : M unit := BaseAgent.execute name (body env).

End RiskAnalystAgent.

(** Construction of a [QualityValidation]: [consistency_checks] is declared
    [Dict[str, bool]], and a value that is not a boolean is refused. *)
Fixpoint validate_checks (checks : Py.dict Py.value) : option (Py.dict bool) :=
  match checks with
  | [] => Some []
  | (k, Py.VBool b) :: checks' =>
      match validate_checks checks' with
      | Some d => Some ((k, b) :: d)
      | None => None
      end
  | _ :: _ => None
  end.

Definition new_QualityValidation (status_ : QualityStatus) (checks : Py.dict Py.value)
  (feedback_ : option string) (notes : list string) : M QualityValidation :=
  match validate_checks checks with
  | Some d =>
      ret {| status := status_; consistency_checks := d;
             feedback := feedback_; validation_notes := notes |}
  | None => raise (Py.ValidationError "validation error for QualityValidation")
  end.

(** ** agents/quality_assurance.py *)

Module QualityAssuranceAgent.

Definition name : string := "QualityAssurance".

Definition _check_recommendation_logic (state : AgentState) : bool :=
  match risk_analysis state with
  | None => false
  | Some ra =>
      let value := RiskDecision_value (recommendation ra) in
      if Py.ge (overall_risk_score ra) 7.5 && negb (String.eqb value "approve") then false
      else if Py.le (overall_risk_score ra) 4.0 && negb (String.eqb value "reject") then false
      else if Py.le (financial_health_score ra) 2.0 && String.eqb value "approve" then false
      else if Py.le (non_financial_risk_score ra) 3.0 && String.eqb value "approve" then false
      else true
  end.

Definition _check_factors_evidence (state : AgentState) : bool :=
  match risk_analysis state with
  | None => false
  | Some ra =>
      let negative_factors_ := negative_factors ra in
      let financial_problems_mentioned :=
        existsb (fun factor =>
                   Py.contains "roa" (Py.lower factor)
                   || Py.contains "endividamento" (Py.lower factor)
                   || Py.contains "liquidez" (Py.lower factor))
                negative_factors_ in
      if financial_problems_mentioned && Py.is_empty (document_analysis state) then false
      else
        let legal_issues_mentioned :=
          existsb (fun factor =>
                     Py.contains "processo" (Py.lower factor)
                     || Py.contains "legal" (Py.lower factor))
                  negative_factors_ in
        if legal_issues_mentioned && Py.is_empty (web_search_results state) then false
        else true
  end.

(** The last expression, [a in text or (b and c and d)], returns the operand
    that decides it: [None] without registry data, the empty corporate name
    when there is one. *)
Definition _check_analysis_text_quality (state : AgentState) : Py.value :=
  match risk_analysis state with
  | None => Py.VBool false
  | Some ra =>
      let text := analysis_text ra in
      if negb (Py.truthy_str text) then Py.VBool false
      else if (String.length text <? 100)%nat then Py.VBool false
      else if (Py.count "." text <? 3)%nat then Py.VBool false
      else if Py.contains (cnpj state) text then Py.VBool true
      else
        match company_data state with
        | None => Py.VNone
        | Some company =>
            if Py.truthy_str (corporate_name company) then
              Py.VBool (Py.contains (Py.lower (corporate_name company)) (Py.lower text))
            else Py.VStr (corporate_name company)
        end
  end.

Definition _check_financial_data_availability (state : AgentState) : bool :=
  if Py.is_empty (document_analysis state) then false
  else existsb (fun doc => (Py.len (financial_kpis doc) >? 0)%Z) (document_analysis state).

Definition _perform_consistency_checks (state : AgentState) : Py.dict Py.value :=
  let checks : Py.dict Py.value := [] in
  let checks :=
    Py.set checks "company_data_available"
      (Py.VBool (match company_data state with Some _ => true | None => false end)) in
  let checks :=
    match company_data state with
    | Some company =>
        let cnpj_clean := Py.filter Py.isdigit (cnpj state) in
        let company_cnpj_clean := Py.filter Py.isdigit (company_cnpj company) in
        Py.set checks "cnpj_consistency" (Py.VBool (String.eqb cnpj_clean company_cnpj_clean))
    | None => Py.set checks "cnpj_consistency" (Py.VBool false)
    end in
  let checks :=
    Py.set checks "risk_analysis_present"
      (Py.VBool (match risk_analysis state with Some _ => true | None => false end)) in
  let checks :=
    match risk_analysis state with
    | Some ra =>
        Py.set checks "scores_in_valid_range"
          (Py.VBool
             (Py.le 0 (financial_health_score ra) && Py.le (financial_health_score ra) 10
              && (Py.le 0 (non_financial_risk_score ra)
                  && Py.le (non_financial_risk_score ra) 10)
              && (Py.le 0 (overall_risk_score ra) && Py.le (overall_risk_score ra) 10)))
    | None => Py.set checks "scores_in_valid_range" (Py.VBool false)
    end in
  let checks :=
    Py.set checks "recommendation_logic_consistent"
      (Py.VBool (_check_recommendation_logic state)) in
  let checks :=
    Py.set checks "factors_have_evidence" (Py.VBool (_check_factors_evidence state)) in
  let checks :=
    Py.set checks "analysis_text_quality" (_check_analysis_text_quality state) in
  let checks :=
    Py.set checks "financial_data_available"
      (Py.VBool (_check_financial_data_availability state)) in
  checks.

Definition critical_checks : list string :=
  ["risk_analysis_present"; "scores_in_valid_range"; "recommendation_logic_consistent"].

Definition important_checks : list string :=
  ["company_data_available"; "cnpj_consistency"; "factors_have_evidence";
   "analysis_text_quality"].

(** [not checks.get(check, False)] *)
Definition failed (checks : Py.dict Py.value) (check : string) : bool :=
  negb (Py.truthy (Py.get checks check (Py.VBool false))).

Definition _determine_quality_status (checks : Py.dict Py.value) : QualityStatus :=
  if existsb (failed checks) critical_checks then REJECTED
  else
    let failed_important := Py.len (List.filter (failed checks) important_checks) in
    if (failed_important >? Py.len important_checks / 2)%Z then REJECTED
    else APPROVED.

(** [[check for check, passed in checks.items() if not passed]] *)
Definition failed_checks (checks : Py.dict Py.value) : list string :=
  map fst (List.filter (fun item => negb (Py.truthy (snd item))) checks).

Definition _generate_feedback (env : Env) (checks : Py.dict Py.value) : M string :=
  t <- tick ;;
  match llm_ainvoke env t with
  | Some response_content => ret response_content
  | None =>
      ret (Py.lit "Verificações que falharam: " ++ String.concat ", " (failed_checks checks)
           ++ Py.lit ". Favor revisar a análise considerando estes pontos.")
  end.

(** [sum(checks.values())]: the additions start from the integer [0]; a
    boolean is added as an integer, anything else is a [TypeError]. *)
Fixpoint sum_values (acc : Z) (vs : list Py.value) : result Z :=
  match vs with
  | [] => Ok acc
  | Py.VBool b :: vs' => sum_values (acc + (if b then 1 else 0))%Z vs'
  | Py.VNone :: _ =>
      Raise (Py.TypeError "unsupported operand type(s) for +: 'int' and 'NoneType'")
  | Py.VStr _ :: _ =>
      Raise (Py.TypeError "unsupported operand type(s) for +: 'int' and 'str'")
  end.

Definition _generate_validation_notes (checks : Py.dict Py.value) : M (list string) :=
  match sum_values 0 (Py.values checks) with
  | Raise e => raise e
  | Ok passed_count =>
      let total_count := Py.len checks in
      let notes :=
        [Py.lit "Verificações de qualidade: " ++ Py.str_int passed_count ++ "/"
         ++ Py.str_int total_count ++ " aprovadas"] in
      let notes :=
        if negb (Py.truthy (Py.get checks "company_data_available" (Py.VBool true)))
        then (notes ++ [Py.lit "Dados da empresa não disponíveis - pode afetar qualidade da análise"])%list
        else notes in
      let notes :=
        if negb (Py.truthy (Py.get checks "financial_data_available" (Py.VBool true)))
        then (notes ++ [Py.lit "Dados financeiros limitados - análise baseada em informações públicas"])%list
        else notes in
      let notes :=
        if Py.truthy (Py.get checks "recommendation_logic_consistent" (Py.VBool true))
        then (notes ++ [Py.lit "Lógica de recomendação consistente com scores calculados"])%list
        else notes in
      let notes :=
        if Py.truthy (Py.get checks "analysis_text_quality" (Py.VBool true))
        then (notes ++ [Py.lit "Qualidade do texto de análise aprovada"])%list
        else notes in
      ret notes
  end.

(** The [try] block of [execute]. *)
Definition body (env : Env) : M unit :=
  BaseAgent.add_processing_note name (Py.lit "Iniciando validação de qualidade") ;;
  state <- get_state ;;
  match risk_analysis state with
  | None =>
      BaseAgent.add_processing_note name
        (Py.lit "Nenhuma análise de risco encontrada para validar")
  | Some _ =>
      let checks := _perform_consistency_checks state in
      let status_ := _determine_quality_status checks in
      feedback_ <- match status_ with
                   | REJECTED => (f <- _generate_feedback env checks ;; ret (Some f))
                   | APPROVED => ret None
                   end ;;
      validation_notes_ <- _generate_validation_notes checks ;;
      quality_validation_ <- new_QualityValidation status_ checks feedback_ validation_notes_ ;;
      modify (set_quality_validation (Some quality_validation_)) ;;
      BaseAgent.add_processing_note name
        (Py.lit "Validação concluída: " ++ QualityStatus_value status_)
  end.

Definition execute (env : Env) : M unit := BaseAgent.execute name (body env).

End QualityAssuranceAgent.

(** ** agents/data_gatherer.py *)

Module DataGathererAgent.

Definition name : string := "DataGatherer".

(** [_get_company_data]: the registry client answers, or its exception is
    raised again. *)
Definition _get_company_data (env : Env) (cnpj_ : string) : M (option CompanyData) :=
  t <- tick ;;
  match cnpj_client_get_company_data env t cnpj_ with
  | Ok company => ret company
  | Raise e => raise e
  end.

(** One of the three searches of [_search_web_information]. *)
Definition search (env : Env) (cnpj_ company_name : string)
  : M (list WebSearchResult) :=
  t <- tick ;;
  match web_search_tool_search env t cnpj_ company_name with
  | Ok results => ret results
  | Raise e => raise e
  end.

(** [_search_web_information]: news, legal issues and presence are searched
    inside one [try]; an exception keeps the results gathered before it. *)
Definition _search_web_information (env : Env) (cnpj_ : string) (company : CompanyData)
  : M (list WebSearchResult) :=
  let company_name :=
    if Py.truthy_str (corporate_name company) then corporate_name company
    else match trade_name company with
         | Some t => if Py.truthy_str t then t else ""
         | None => ""
         end in
  if negb (Py.truthy_str company_name) then ret []
  else
    try_except
      (news_results <- search env cnpj_ company_name ;;
       try_except
         (legal_results <- search env cnpj_ company_name ;;
          try_except
            (presence_results <- search env cnpj_ company_name ;;
             ret (news_results ++ legal_results ++ presence_results)%list)
            (fun _ => ret (news_results ++ legal_results)%list))
         (fun _ => ret news_results))
      (fun _ => ret []).

(** The [try] block of [execute]. *)
Definition body (env : Env) : M unit :=
  state <- get_state ;;
  BaseAgent.add_processing_note name
    ("Iniciando coleta de dados para CNPJ " ++ cnpj state) ;;
  company_data_ <- _get_company_data env (cnpj state) ;;
  match company_data_ with
  | Some company =>
      modify (set_company_data (Some company)) ;;
      BaseAgent.add_processing_note name "Dados da Receita Federal coletados com sucesso" ;;
      web_results <- _search_web_information env (cnpj state) company ;;
      modify (fun s => set_web_search_results (web_search_results s ++ web_results) s) ;;
      BaseAgent.add_processing_note name
        ("Coletados " ++ Py.str_int (Py.len web_results) ++ " resultados de busca web") ;;
      BaseAgent.add_processing_note name (Py.lit "Coleta de dados concluída")
  | None =>
      BaseAgent.add_processing_note name
        (Py.lit "Não foi possível obter dados da Receita Federal") ;;
      BaseAgent.add_processing_note name (Py.lit "Coleta de dados concluída")
  end.

Definition execute (env : Env) : M unit := BaseAgent.execute name (body env).

End DataGathererAgent.

(** ** agents/document_analyst.py *)

Module DocumentAnalystAgent.

Definition name : string := "DocumentAnalyst".

(** The loop [for doc_info in state.documents]: [_analyze_document] catches
    its own exceptions and answers [None] for a document it cannot use. *)
Fixpoint analyze_documents (env : Env) (docs : list Document) : M unit :=
  match docs with
  | [] => ret tt
  | doc_info :: docs' =>
      t <- tick ;;
      match document_analyst_analyze_document env t doc_info with
      | Some analysis =>
          modify (fun s => set_document_analysis (document_analysis s ++ [analysis]) s)
      | None => ret tt
      end ;;
      analyze_documents env docs'
  end.

(** The [try] block of [execute]. *)
Definition body (env : Env) : M unit :=
  state <- get_state ;;
  BaseAgent.add_processing_note name
    (Py.lit "Iniciando análise de " ++ Py.str_int (Py.len (documents state))
     ++ " documentos") ;;
  if Py.is_empty (documents state) then
    BaseAgent.add_processing_note name (Py.lit "Nenhum documento fornecido para análise")
  else
    t <- tick ;;
    match vector_store_clear env t with
    | Raise e => raise e
    | Ok _ =>
        analyze_documents env (documents state) ;;
        state' <- get_state ;;
        BaseAgent.add_processing_note name
          (Py.lit "Análise concluída: " ++ Py.str_int (Py.len (document_analysis state'))
           ++ " documentos processados")
    end.

Definition execute (env : Env) : M unit := BaseAgent.execute name (body env).

End DocumentAnalystAgent.

(** ** graph/credit_analysis_graph.py *)

Module CreditAnalysisGraph.

Inductive node : Type :=
| data_gatherer
| document_analyst
| risk_analyst
| quality_assurance.

Definition node_eqb (a b : node) : bool :=
  match a, b with
  | data_gatherer, data_gatherer | document_analyst, document_analyst
  | risk_analyst, risk_analyst | quality_assurance, quality_assurance => true
  | _, _ => false
  end.

(** The answers of the conditional edge. *)
Inductive route : Type := retry | finish.

Definition _data_gatherer_node (env : Env) : M unit :=
  try_except (DataGathererAgent.execute env) (fun e => raise e).

Definition _document_analyst_node (env : Env) : M unit :=
  try_except (DocumentAnalystAgent.execute env) (fun e => raise e).

(** [_risk_analyst_node]: a feedback of the quality gate is copied into the
    notes and the validation is reset, then the analyst runs. *)
Definition _risk_analyst_node (env : Env) : M unit :=
  try_except
    (state <- get_state ;;
     match quality_validation state with
     | Some qv =>
         match feedback qv with
         | Some text =>
             if Py.truthy_str text then
               modify (fun s =>
                 set_processing_notes (processing_notes s ++ ["Feedback QA: " ++ text]) s) ;;
               modify (set_quality_validation None)
             else ret tt
         | None => ret tt
         end
     | None => ret tt
     end ;;
     RiskAnalystAgent.execute env)
    (fun e => raise e).

Definition _quality_assurance_node (env : Env) : M unit :=
  try_except (QualityAssuranceAgent.execute env) (fun e => raise e).

Definition _should_retry_analysis (state : AgentState) : route :=
  match quality_validation state with
  | None => finish
  | Some qv =>
      match status qv with
      | APPROVED => finish
      | REJECTED =>
          if (retry_count state <? max_retries state)%Z then retry
          else finish
      end
  end.

(** The compiled graph: the function of each node, and the node that follows
    it ([None] is [END]). *)
Definition run_node (env : Env) (n : node) : M unit :=
  match n with
  | data_gatherer => _data_gatherer_node env
  | document_analyst => _document_analyst_node env
  | risk_analyst => _risk_analyst_node env
  | quality_assurance => _quality_assurance_node env
  end.

Definition next_node (n : node) (state : AgentState) : option node :=
  match n with
  | data_gatherer => Some document_analyst
  | document_analyst => Some risk_analyst
  | risk_analyst => Some quality_assurance
  | quality_assurance =>
      match _should_retry_analysis state with
      | retry => Some risk_analyst
      | finish => None
      end
  end.

Definition entry_point : node := data_gatherer.

(** [self.graph.ainvoke]: the nodes run one after the other until [END];
    the library allows [recursion_limit] steps (25 unless configured) and
    raises once they are spent.  The result comes with the list of the nodes
    that ran, most recent last. *)
Fixpoint ainvoke_from (env : Env) (recursion_limit : nat) (n : node) (w : World)
  : result unit * World * list node :=
  match recursion_limit with
  | O => (Raise Py.GraphRecursionError, w, [])
  | S limit' =>
      match run_node env n w with
      | (Raise e, w') => (Raise e, w', [n])
      | (Ok _, w') =>
          match next_node n (w_state w') with
          | None => (Ok tt, w', [n])
          | Some n' =>
              let '(r, w'', ran) := ainvoke_from env limit' n' w' in
              (r, w'', n :: ran)
          end
      end
  end.

Definition default_recursion_limit : nat := 25.

(** [analyze_credit]: the initial state, then the graph. *)
Definition analyze_credit (env : Env) (recursion_limit : nat)
  (cnpj_ : string) (documents_ : list Document) (request_id_ : string)
  : result unit * World * list node :=
  let initial_state := new_AgentState request_id_ cnpj_ documents_ in
  ainvoke_from env recursion_limit entry_point
    {| w_state := initial_state; w_ticks := 0 |}.

End CreditAnalysisGraph.

(** * Specification-side definitions *)

(** The precedence rules of the Recommendation Resolver, as the
    specification words them: each rule applies when the rules before it do
    not. *)
Inductive resolves (financial non_financial overall : Q) : RiskDecision -> Prop :=
| rule_financial_floor :
    financial <= 2.0 -> resolves financial non_financial overall REJECT
| rule_non_financial_floor :
    ~ financial <= 2.0 -> non_financial <= 3.0 ->
    resolves financial non_financial overall REJECT
| rule_approve :
    ~ financial <= 2.0 -> ~ non_financial <= 3.0 -> 7.5 <= overall ->
    resolves financial non_financial overall APPROVE
| rule_review :
    ~ financial <= 2.0 -> ~ non_financial <= 3.0 -> ~ 7.5 <= overall ->
    5.5 <= overall ->
    resolves financial non_financial overall REVIEW
| rule_otherwise :
    ~ financial <= 2.0 -> ~ non_financial <= 3.0 -> ~ 7.5 <= overall ->
    ~ 5.5 <= overall ->
    resolves financial non_financial overall REJECT.



(** An assessment with the given scores and recommendation. *)
Definition assessment (financial non_financial overall : Q) (r : RiskDecision)
  (text : string) : RiskAnalysis :=
  {| financial_health_score := financial;
     non_financial_risk_score := non_financial;
     overall_risk_score := overall;
     positive_factors := []; negative_factors := [];
     recommendation := r; analysis_text := text; confidence_level := 0.8 |}.

Definition sample_cnpj : string := "11222333000181".

(** A fresh state that carries the assessment [ra]. *)
Definition state_with (ra : RiskAnalysis) : AgentState :=
  set_risk_analysis (Some ra) (new_AgentState "test-123" sample_cnpj []).

(** The outcomes of the eight checks of the quality gate, read off the
    state. *)
Definition has_company_data (state : AgentState) : bool :=
  match company_data state with Some _ => true | None => false end.

Definition cnpj_matches (state : AgentState) : bool :=
  match company_data state with
  | Some company =>
      String.eqb (Py.filter Py.isdigit (cnpj state))
                 (Py.filter Py.isdigit (company_cnpj company))
  | None => false
  end.

Definition has_assessment (state : AgentState) : bool :=
  match risk_analysis state with Some _ => true | None => false end.

Definition in_range (x : Q) : bool := Py.le 0 x && Py.le x 10.

Definition scores_in_range (state : AgentState) : bool :=
  match risk_analysis state with
  | Some ra =>
      in_range (financial_health_score ra)
      && in_range (non_financial_risk_score ra)
      && in_range (overall_risk_score ra)
  | None => false
  end.

(** The critical checks: assessment present, scores in range, recommendation
    consistent. *)
Definition critical_outcomes (state : AgentState) : list bool :=
  [has_assessment state; scores_in_range state;
   QualityAssuranceAgent._check_recommendation_logic state].

(** The important checks: registry data present, tax-identifier match,
    evidence support, narrative quality. *)
Definition important_outcomes (state : AgentState) : list bool :=
  [has_company_data state; cnpj_matches state;
   QualityAssuranceAgent._check_factors_evidence state;
   Py.truthy (QualityAssuranceAgent._check_analysis_text_quality state)].

(** How many checks of a list fail. *)
Definition failures (outcomes : list bool) : nat :=
  List.length (List.filter negb outcomes).

(** The status the quality gate resolves for a state. *)
Definition quality_status (state : AgentState) : QualityStatus :=
  QualityAssuranceAgent._determine_quality_status
    (QualityAssuranceAgent._perform_consistency_checks state).

(** The narrative check answered with a boolean (and not with [None] or an
    empty corporate name). *)
Definition narrative_check_is_boolean (state : AgentState) : bool :=
  match QualityAssuranceAgent._check_analysis_text_quality state with
  | Py.VBool _ => true
  | _ => false
  end.

(** ** A sample environment *)

(** Rounding to the nearest integer, ties to even. *)
Definition round_half_even (q : Q) : Z :=
  let n := Qnum q in
  let d := Zpos (Qden q) in
  let floor := (n / d)%Z in
  let twice_rest := (2 * (n mod d))%Z in
  if (twice_rest <? d)%Z then floor
  else if (d <? twice_rest)%Z then (floor + 1)%Z
  else if Z.even floor then floor else (floor + 1)%Z.

Fixpoint zeros (n : nat) : string :=
  match n with
  | O => ""
  | S n' => "0" ++ zeros n'
  end.

(** A fixed-point rendering with [digits] decimals. *)
Definition format_fixed (digits : nat) (q : Q) : string :=
  let scale := (10 ^ Z.of_nat digits)%Z in
  let r := round_half_even (q * inject_Z scale) in
  let a := Z.abs r in
  let fraction := Py.str_int (a mod scale) in
  (if (r <? 0)%Z then "-" else "")
  ++ Py.str_int (a / scale)
  ++ (match digits with
      | O => ""
      | _ => "." ++ zeros (digits - String.length fraction) ++ fraction
      end).

(** The sample formatter: fixed decimals for every specification (one
    decimal stands for [repr]). *)
Definition sample_format (spec : Py.format_spec) (q : Q) : string :=
  match spec with
  | Py.repr => format_fixed 1 q
  | Py.fixed digits => format_fixed digits q
  end.

(** An environment in which the registry knows no company, the searches find
    nothing, no document can be analysed, the clock stands at [clock] and
    the language model answers [reply] to every call ([None]: it fails). *)
Definition sample_env (clock : datetime) (reply : option string) : Env :=
  {| format_float := sample_format;
     now := fun _ => clock;
     llm_ainvoke := fun _ => reply;
     cnpj_client_get_company_data := fun _ _ => Ok None;
     web_search_tool_search := fun _ _ _ => Ok [];
     vector_store_clear := fun _ => Ok tt;
     document_analyst_analyze_document := fun _ _ => None |}.

Definition world_of (state : AgentState) : World :=
  {| w_state := state; w_ticks := 0 |}.

(** ** Sample states *)

(** No registry data and an empty narrative: three important checks fail. *)
Definition three_down : AgentState := state_with (assessment 7.0 8.0 7.6 APPROVE "").

(** A narrative long enough, with its sentences, that names the tax
    identifier. *)
Definition sample_narrative : string :=
  Py.lit "Empresa 11222333000181. Saúde financeira avaliada sem documentos. Nenhum registro localizado. Recomendação baseada em evidências públicas.".

(** No registry data and a sound narrative: two important checks fail. *)
Definition two_down : AgentState :=
  state_with (assessment 7.0 8.0 7.6 APPROVE sample_narrative).

(** Overall score 8.5 stored with a Reject. *)
Definition high_score_rejected : AgentState :=
  state_with (assessment 8.0 9.0 8.5 REJECT sample_narrative).

(** A state that carries no assessment. *)
Definition no_assessment : AgentState := new_AgentState "test-123" sample_cnpj [].

(** The only indicator set of a document: current assets 0 against current
    liabilities 100, nothing else observed. *)
Definition kpi_with_liquidity (assets liabilities : option Q) : FinancialKPI :=
  {| revenue := None; gross_profit := None; operating_profit := None;
     net_profit := None; total_assets := None; total_liabilities := None;
     equity := None; current_assets := assets; current_liabilities := liabilities;
     debt_to_equity := None; roa := None; roe := None; period := "2024" |}.

Definition state_with_kpi (kpi : FinancialKPI) : AgentState :=
  set_document_analysis
    [{| document_type := BALANCE_SHEET; financial_kpis := [kpi];
        extracted_text_sample := ""; confidence_score := 0.5 |}]
    (new_AgentState "test-123" sample_cnpj []).

Definition zero_assets_kpi : FinancialKPI := kpi_with_liquidity (Some 0) (Some 100).

(** The registration lies [years] years before [now_]: between [years] times
    365 and [years] times 366 whole days. *)
Definition registered_years_ago (years : Z) (now_ registration : datetime) : Prop :=
  (years * 365 <= RiskAnalystAgent.timedelta_days (now_ - registration) <= years * 366)%Z.

(** A registry record with the legal status ATIVA, registered at instant 0. *)
Definition active_company : CompanyData :=
  {| company_cnpj := sample_cnpj; corporate_name := "Empresa Teste LTDA";
     trade_name := Some "Teste Corp"; registration_date := Some 0%Z;
     legal_situation := Some "ATIVA" |}.

Definition active_state : AgentState :=
  set_company_data (Some active_company) (new_AgentState "test-123" sample_cnpj []).

(** Six years of 365 days and one leap day after instant 0. *)
Definition six_years_later : datetime :=
  (2191 * RiskAnalystAgent.microseconds_per_day + 1234)%Z.

(** The overall score the analyst computes from the two sub-scores. *)
Definition overall_of (financial_score non_financial_score : Q) : Q :=
  financial_score * 0.7 + non_financial_score * 0.3.

(** The locals a scorer starts from. *)
Definition financial_start : RiskAnalystAgent.Locals :=
  {| RiskAnalystAgent.l_score := 5.0; RiskAnalystAgent.l_positive := [];
     RiskAnalystAgent.l_negative := [] |}.

Definition non_financial_start : RiskAnalystAgent.Locals :=
  {| RiskAnalystAgent.l_score := 7.0; RiskAnalystAgent.l_positive := [];
     RiskAnalystAgent.l_negative := [] |}.

(** An indicator set that earns every bonus of the financial scorer. *)
Definition best_kpi : FinancialKPI :=
  {| revenue := Some 100; gross_profit := None; operating_profit := None;
     net_profit := Some 20; total_assets := None; total_liabilities := None;
     equity := None; current_assets := Some 200; current_liabilities := Some 100;
     debt_to_equity := Some 0.3; roa := Some 20; roe := None; period := "2024" |}.

(** The assessment the analyst builds from a state, at the instant [now_]
    and with the narrative [text]. *)
Definition assessment_of (env : Env) (now_ : datetime) (state : AgentState)
  (text : string) : RiskAnalysis :=
  let financial := RiskAnalystAgent._analyze_financial_health env state in
  let non_financial := RiskAnalystAgent._analyze_non_financial_risks env now_ state in
  {| financial_health_score := fst financial;
     non_financial_risk_score := fst non_financial;
     overall_risk_score := overall_of (fst financial) (fst non_financial);
     positive_factors :=
       RiskAnalystAgent.positive (snd financial)
       ++ RiskAnalystAgent.positive (snd non_financial);
     negative_factors :=
       RiskAnalystAgent.negative (snd financial)
       ++ RiskAnalystAgent.negative (snd non_financial);
     recommendation :=
       RiskAnalystAgent._determine_recommendation
         (overall_of (fst financial) (fst non_financial))
         (fst financial) (fst non_financial);
     analysis_text := text;
     confidence_level := RiskAnalystAgent._calculate_confidence_level state |}.

(** Two states carry the same upstream evidence: registry record, web-search
    results and document analyses. *)
Definition same_evidence (s s' : AgentState) : Prop :=
  company_data s = company_data s'
  /\ web_search_results s = web_search_results s'
  /\ document_analysis s = document_analysis s'.

(** The confidence level of a state passes the validation of the
    assessment (no document carries a negative confidence). *)
Definition confidence_valid (state : AgentState) : bool :=
  Py.le 0 (RiskAnalystAgent._calculate_confidence_level state).

(** What the scoring node does before the analyst runs: a feedback of the
    quality gate is copied into the notes and the validation is reset. *)
Definition consume_feedback (state : AgentState) : AgentState :=
  match quality_validation state with
  | Some qv =>
      match feedback qv with
      | Some text =>
          if Py.truthy_str text then
            set_quality_validation None
              (set_processing_notes (processing_notes state ++ ["Feedback QA: " ++ text])
                 state)
          else state
      | None => state
      end
  | None => state
  end.

(** The retry counter did not decrease and the ceiling did not change. *)
Definition counters_grow (s s' : AgentState) : Prop :=
  (retry_count s <= retry_count s')%Z /\ max_retries s' = max_retries s.

(** The retry counter and the ceiling did not change. *)
Definition counters_kept (s s' : AgentState) : Prop :=
  retry_count s' = retry_count s /\ max_retries s' = max_retries s.

(** A computation relates the state it starts from to the state it leaves,
    whether it returns or raises. *)
Definition keeps (R : AgentState -> AgentState -> Prop) {A} (m : M A) : Prop :=
  forall w, R (w_state w) (w_state (snd (m w))).

(** How often the scoring node ran. *)
Definition scoring_passes (ran : list CreditAnalysisGraph.node) : nat :=
  List.length (List.filter (CreditAnalysisGraph.node_eqb CreditAnalysisGraph.risk_analyst) ran).

(** An uploaded file without content: [_analyze_document] answers [None]
    for it. *)
Definition empty_document : Document :=
  {| filename := "balanco.pdf"; doc_content := "" |}.

(** An environment in which the registry knows no company and the files of
    the vector store cannot be removed at first: [vector_store.clear] raises
    at every external interaction before the fifth and returns from then on.
    In a run of the pipeline the registry lookup is the first interaction, so
    the document stage meets the error three times.  The language model
    answers "ok". *)
Definition locked_store_env : Env :=
  {| format_float := sample_format;
     now := fun _ => 0%Z;
     llm_ainvoke := fun _ => Some "ok";
     cnpj_client_get_company_data := fun _ _ => Ok None;
     web_search_tool_search := fun _ _ _ => Ok [];
     vector_store_clear :=
       fun t => if (t <? 4)%nat then Raise (Py.ExternalError "Permission denied")
                else Ok tt;
     document_analyst_analyze_document := fun _ _ => None |}.

(** The request of the sample company with that one file, as the pipeline
    starts on it. *)
Definition with_document : AgentState :=
  new_AgentState "test-123" sample_cnpj [empty_document].

(** The environment of a request the quality gate rejects on every pass: no
    registry data, no document, and a narrative of two characters. *)
Definition rejecting_env : Env := sample_env 0%Z (Some "ok").

(** The states that request runs through: only the notes, the assessment and
    the quality report vary. *)
Definition loop_state (notes : list string) (ra : option RiskAnalysis)
  (qv : option QualityValidation) : AgentState :=
  {| request_id := "test-123"; cnpj := sample_cnpj; documents := [];
     company_data := None; web_search_results := []; document_analysis := [];
     risk_analysis := ra; quality_validation := qv;
     retry_count := 0; max_retries := 3; processing_notes := notes |}.

(** A state with a Rejected report and an untouched retry counter. *)
Definition rejected_state : AgentState :=
  set_quality_validation
    (Some {| status := REJECTED; consistency_checks := [];
             feedback := Some "ok"; validation_notes := [] |})
    three_down.

(** * Properties *)

Lemma ge_true_iff (a b : Q) : Py.ge a b = true <-> b <= a.
Proof. unfold Py.ge. apply Qle_bool_iff. Qed.

Lemma le_true_iff (a b : Q) : Py.le a b = true <-> a <= b.
Proof. unfold Py.le. apply Qle_bool_iff. Qed.

Lemma ge_false_iff (a b : Q) : Py.ge a b = false <-> ~ b <= a.
Proof.
  rewrite <- ge_true_iff. destruct (Py.ge a b); split; congruence.
Qed.

Lemma le_false_iff (a b : Q) : Py.le a b = false <-> ~ a <= b.
Proof.
  rewrite <- le_true_iff. destruct (Py.le a b); split; congruence.
Qed.

(** Case analysis on a comparison of the source, with the order fact in the
    context. *)
Ltac case_cmp :=
  match goal with
  | |- context [Py.ge ?a ?b] =>
      let H := fresh "Hge" in
      destruct (Py.ge a b) eqn:H;
      [apply ge_true_iff in H | apply ge_false_iff in H]
  | |- context [Py.le ?a ?b] =>
      let H := fresh "Hle" in
      destruct (Py.le a b) eqn:H;
      [apply le_true_iff in H | apply le_false_iff in H]
  end.

Lemma determine_recommendation_resolves (f n o : Q) :
  resolves f n o (RiskAnalystAgent._determine_recommendation o f n).
Proof.
  unfold RiskAnalystAgent._determine_recommendation.
  repeat case_cmp; eauto using resolves.
Qed.

Lemma resolves_functional (f n o : Q) (d d' : RiskDecision) :
  resolves f n o d -> resolves f n o d' -> d = d'.
Proof.
  intros H H'; destruct H; destruct H'; try reflexivity; contradiction.
Qed.

(** C2. The Recommendation Resolver decides exactly as the precedence rules
    say, first match winning: Reject when financial <= 2.0; else Reject when
    non-financial <= 3.0; else Approve when overall >= 7.5; else Review when
    overall >= 5.5; else Reject.  Its four sample triples give Reject,
    Approve, Review and Reject. *)
Theorem C2_resolver_precedence :
  forall (financial non_financial overall : Q) (d : RiskDecision),
    (RiskAnalystAgent._determine_recommendation overall financial non_financial = d
     <-> resolves financial non_financial overall d)
    /\ RiskAnalystAgent._determine_recommendation 9.0 1.0 9.0 = REJECT
    /\ RiskAnalystAgent._determine_recommendation 7.6 7.0 8.0 = APPROVE
    /\ RiskAnalystAgent._determine_recommendation 6.0 6.0 6.0 = REVIEW
    /\ RiskAnalystAgent._determine_recommendation 4.0 4.0 4.0 = REJECT.
Proof.
  intros f n o d. split; [split | repeat split].
  - intros <-. apply determine_recommendation_resolves.
  - intros H. eapply resolves_functional; [apply determine_recommendation_resolves | exact H].
Qed.

(** ** The recommendation-consistency check *)






(** ** The status resolution of the quality gate *)

Lemma perform_consistency_checks_eq (state : AgentState) :
  QualityAssuranceAgent._perform_consistency_checks state =
  [("company_data_available", Py.VBool (has_company_data state));
   ("cnpj_consistency", Py.VBool (cnpj_matches state));
   ("risk_analysis_present", Py.VBool (has_assessment state));
   ("scores_in_valid_range", Py.VBool (scores_in_range state));
   ("recommendation_logic_consistent",
    Py.VBool (QualityAssuranceAgent._check_recommendation_logic state));
   ("factors_have_evidence", Py.VBool (QualityAssuranceAgent._check_factors_evidence state));
   ("analysis_text_quality", QualityAssuranceAgent._check_analysis_text_quality state);
   ("financial_data_available",
    Py.VBool (QualityAssuranceAgent._check_financial_data_availability state))].
Proof.
  unfold QualityAssuranceAgent._perform_consistency_checks,
    has_company_data, cnpj_matches, has_assessment, scores_in_range, in_range.
  destruct (company_data state), (risk_analysis state); reflexivity.
Qed.

Lemma quality_status_eq (state : AgentState) :
  quality_status state =
  if existsb negb (critical_outcomes state) then REJECTED
  else if (2 <? failures (important_outcomes state))%nat then REJECTED
  else APPROVED.
Proof.
  unfold quality_status. rewrite perform_consistency_checks_eq.
  unfold critical_outcomes, important_outcomes, failures,
    QualityAssuranceAgent._determine_quality_status, QualityAssuranceAgent.failed.
  cbn [existsb List.filter Py.get String.eqb Ascii.eqb Bool.eqb
       QualityAssuranceAgent.critical_checks QualityAssuranceAgent.important_checks
       Py.truthy negb orb].
  destruct (has_assessment state), (scores_in_range state),
    (QualityAssuranceAgent._check_recommendation_logic state),
    (has_company_data state), (cnpj_matches state),
    (QualityAssuranceAgent._check_factors_evidence state),
    (Py.truthy (QualityAssuranceAgent._check_analysis_text_quality state));
    reflexivity.
Qed.

Lemma critical_pass_iff (state : AgentState) :
  forallb (fun passed : bool => passed) (critical_outcomes state) = true
  <-> existsb negb (critical_outcomes state) = false.
Proof.
  unfold critical_outcomes; cbn.
  destruct (has_assessment state), (scores_in_range state),
    (QualityAssuranceAgent._check_recommendation_logic state); cbn; split; congruence.
Qed.

(** C5.  When the three critical checks pass, the status is Rejected exactly
    when more than half of the four important checks (registry data present,
    tax-identifier match, evidence support, narrative quality) fail: with 3
    or 4 of them failing it is Rejected, with 2 or fewer it is Approved. *)
Theorem C5_important_majority :
  forall state : AgentState,
    forallb (fun passed : bool => passed) (critical_outcomes state) = true ->
    (quality_status state = REJECTED
     <-> (2 < failures (important_outcomes state))%nat)
    /\ (failures (important_outcomes state) = 3%nat
        \/ failures (important_outcomes state) = 4%nat ->
        quality_status state = REJECTED)
    /\ ((failures (important_outcomes state) <= 2)%nat ->
        quality_status state = APPROVED).
Proof.
  intros state Hcritical. apply critical_pass_iff in Hcritical.
  rewrite quality_status_eq, Hcritical.
  destruct (2 <? failures (important_outcomes state))%nat eqn:Hmajority.
  - apply Nat.ltb_lt in Hmajority. repeat split; intros; try lia; congruence.
  - apply Nat.ltb_ge in Hmajority. repeat split; intros; try lia; congruence.
Qed.


Lemma C5_important_majority_witness :
  (quality_status three_down = REJECTED
     <-> (2 < failures (important_outcomes three_down))%nat)
    /\ (failures (important_outcomes three_down) = 3%nat
        \/ failures (important_outcomes three_down) = 4%nat ->
        quality_status three_down = REJECTED)
    /\ ((failures (important_outcomes three_down) <= 2)%nat ->
        quality_status three_down = APPROVED).
Proof.
  apply (C5_important_majority three_down). reflexivity.
Defined.

(** ** The quality gate as a stage *)

Lemma execute_ok (name : string) (body : M unit) (w w' : World) (a : unit) :
  body w = (Ok a, w') -> BaseAgent.execute name body w = (Ok a, w').
Proof.
  intros Hbody. unfold BaseAgent.execute.
  destruct (BaseAgent.retry_budget (w_state w));
    cbn [BaseAgent.execute_depth]; unfold try_except; rewrite Hbody; reflexivity.
Qed.

Lemma critical_failure_rejects (state : AgentState) :
  existsb negb (critical_outcomes state) = true -> quality_status state = REJECTED.
Proof. intros H. rewrite quality_status_eq, H. reflexivity. Qed.

Lemma validate_checks_boolean (state : AgentState) :
  narrative_check_is_boolean state = true ->
  exists d, validate_checks (QualityAssuranceAgent._perform_consistency_checks state) = Some d.
Proof.
  unfold narrative_check_is_boolean. rewrite perform_consistency_checks_eq.
  destruct (QualityAssuranceAgent._check_analysis_text_quality state); try discriminate.
  intros _. cbn. eauto.
Qed.

Lemma generate_validation_notes_boolean (state : AgentState) :
  narrative_check_is_boolean state = true ->
  exists notes, forall w,
    QualityAssuranceAgent._generate_validation_notes
      (QualityAssuranceAgent._perform_consistency_checks state) w = (Ok notes, w).
Proof.
  unfold narrative_check_is_boolean, QualityAssuranceAgent._generate_validation_notes.
  rewrite perform_consistency_checks_eq.
  destruct (QualityAssuranceAgent._check_analysis_text_quality state); try discriminate.
  intros _. cbn [Py.values map snd QualityAssuranceAgent.sum_values].
  eexists. intros w. reflexivity.
Qed.

Lemma qa_body_rejects (env : Env) (w : World) (ra : RiskAnalysis) :
  risk_analysis (w_state w) = Some ra ->
  quality_status (w_state w) = REJECTED ->
  narrative_check_is_boolean (w_state w) = true ->
  exists w' qv,
    QualityAssuranceAgent.body env w = (Ok tt, w')
    /\ quality_validation (w_state w') = Some qv
    /\ status qv = REJECTED
    /\ retry_count (w_state w') = retry_count (w_state w).
Proof.
  intros Hra Hstatus Hbool.
  destruct (validate_checks_boolean _ Hbool) as [d Hd].
  destruct (generate_validation_notes_boolean _ Hbool) as [notes Hnotes].
  unfold QualityAssuranceAgent.body, bind, BaseAgent.add_processing_note, modify, get_state.
  cbn [w_state w_ticks risk_analysis set_processing_notes].
  rewrite Hra.
  change (QualityAssuranceAgent._perform_consistency_checks
            (set_processing_notes _ (w_state w)))
    with (QualityAssuranceAgent._perform_consistency_checks (w_state w)).
  fold (quality_status (w_state w)). rewrite Hstatus.
  unfold QualityAssuranceAgent._generate_feedback, bind, tick, ret.
  cbn [w_state w_ticks].
  destruct (llm_ainvoke env (w_ticks w)); rewrite Hnotes;
    unfold new_QualityValidation; rewrite Hd; unfold ret;
    eexists; eexists; repeat split.
Qed.

Lemma qa_body_without_assessment (env : Env) (w : World) :
  risk_analysis (w_state w) = None ->
  exists w',
    QualityAssuranceAgent.body env w = (Ok tt, w')
    /\ quality_validation (w_state w') = quality_validation (w_state w)
    /\ risk_analysis (w_state w') = None.
Proof.
  intros Hra.
  unfold QualityAssuranceAgent.body, bind, BaseAgent.add_processing_note, modify, get_state.
  cbn [w_state w_ticks risk_analysis set_processing_notes].
  rewrite Hra. eexists. repeat split. exact Hra.
Qed.

Lemma inconsistent_high_score (state : AgentState) (ra : RiskAnalysis) :
  risk_analysis state = Some ra ->
  overall_risk_score ra == 8.5 -> recommendation ra = REJECT ->
  existsb negb (critical_outcomes state) = true.
Proof.
  intros Hra Hscore Hrec. unfold critical_outcomes. cbn [existsb].
  assert (Hcheck : QualityAssuranceAgent._check_recommendation_logic state = false).
  { unfold QualityAssuranceAgent._check_recommendation_logic. rewrite Hra, Hrec.
    cbn [RiskDecision_value].
    assert (Hge : Py.ge (overall_risk_score ra) 7.5 = true)
      by (apply ge_true_iff; rewrite Hscore; lra).
    rewrite Hge. reflexivity. }
  rewrite Hcheck. cbn. rewrite !orb_true_r. reflexivity.
Qed.

(** C4 (counterexample).  On a state with no assessment the critical check
    "assessment present" fails, yet the quality gate returns normally and
    leaves the state without any quality report. *)
Lemma C4_counterexample :
  existsb negb (critical_outcomes no_assessment) = true
  /\ fst (QualityAssuranceAgent.execute (sample_env 0%Z None) (world_of no_assessment)) = Ok tt
  /\ quality_validation
       (w_state (snd (QualityAssuranceAgent.execute (sample_env 0%Z None)
                        (world_of no_assessment)))) = None.
Proof. repeat split. Qed.

(** C4 (amended).  For a state carrying an assessment in which a critical
    check (scores within [0,10], recommendation consistent) fails, the status
    resolves to Rejected whatever the other checks say, and the quality gate
    stores a report with status Rejected whenever its narrative check answers
    with a boolean; an assessment with overall score 8.5 and recommendation
    Reject fails a critical check.  A state with no assessment gets no
    report: the gate returns normally with the quality report untouched. *)
Theorem C4_critical_failure_rejects :
  forall (env : Env) (w : World),
    (forall ra : RiskAnalysis,
        risk_analysis (w_state w) = Some ra ->
        existsb negb (critical_outcomes (w_state w)) = true ->
        quality_status (w_state w) = REJECTED
        /\ (narrative_check_is_boolean (w_state w) = true ->
            exists w' qv,
              QualityAssuranceAgent.execute env w = (Ok tt, w')
              /\ quality_validation (w_state w') = Some qv
              /\ status qv = REJECTED))
    /\ (forall ra : RiskAnalysis,
           risk_analysis (w_state w) = Some ra ->
           overall_risk_score ra == 8.5 -> recommendation ra = REJECT ->
           existsb negb (critical_outcomes (w_state w)) = true)
    /\ (risk_analysis (w_state w) = None ->
        exists w',
          QualityAssuranceAgent.execute env w = (Ok tt, w')
          /\ quality_validation (w_state w') = quality_validation (w_state w)).
Proof.
  intros env w. repeat split.
  - apply critical_failure_rejects; assumption.
  - intros Hbool.
    destruct (qa_body_rejects env w ra) as (w' & qv & Hbody & Hqv & Hstatus & _);
      auto using critical_failure_rejects.
    exists w', qv. repeat split; auto.
    apply execute_ok, Hbody.
  - intros ra. apply inconsistent_high_score.
  - intros Hnone.
    destruct (qa_body_without_assessment env w Hnone) as (w' & Hbody & Hqv & _).
    exists w'. split; auto. apply execute_ok, Hbody.
Qed.

Lemma C4_critical_failure_rejects_witness :
  quality_status high_score_rejected = REJECTED
  /\ exists w' qv,
       QualityAssuranceAgent.execute (sample_env 0%Z None) (world_of high_score_rejected)
       = (Ok tt, w')
       /\ quality_validation (w_state w') = Some qv
       /\ status qv = REJECTED.
Proof.
  destruct (C4_critical_failure_rejects (sample_env 0%Z None) (world_of high_score_rejected))
    as [Hcritical _].
  destruct (Hcritical (assessment 8.0 9.0 8.5 REJECT sample_narrative) eq_refl eq_refl)
    as [Hstatus Hreport].
  split; [exact Hstatus | apply Hreport; reflexivity].
Defined.

(** ** The financial health scorer *)

Import RiskAnalystAgent.

Lemma truthy_float_iff (x : Q) : Py.truthy_float x = true <-> ~ x == 0.
Proof.
  unfold Py.truthy_float. rewrite negb_true_iff.
  split.
  - intros H Heq. apply Qeq_bool_iff in Heq. congruence.
  - intros H. destruct (Qeq_bool x 0) eqn:E; [|reflexivity].
    apply Qeq_bool_iff in E. contradiction.
Qed.

(** With both operands present and different from zero, the liquidity block
    adjusts by the current ratio. *)
Lemma analyze_liquidity_nonzero (env : Env) (k : FinancialKPI) (l : Locals) (a b : Q) :
  current_assets k = Some a -> current_liabilities k = Some b ->
  ~ a == 0 -> ~ b == 0 ->
  (1.5 <= a / b ->
   analyze_liquidity env k l
   = credit 0.8 (Py.lit "Boa liquidez corrente: " ++ format_float env (Py.fixed 2) (a / b)) l)
  /\ (1.0 <= a / b -> ~ 1.5 <= a / b ->
      analyze_liquidity env k l
      = credit 0.3 (Py.lit "Liquidez adequada: " ++ format_float env (Py.fixed 2) (a / b)) l)
  /\ (~ 1.0 <= a / b ->
      analyze_liquidity env k l
      = debit 1.0 (Py.lit "Liquidez insuficiente: " ++ format_float env (Py.fixed 2) (a / b)) l).
Proof.
  intros Ha Hb Ha0 Hb0. unfold analyze_liquidity. rewrite Ha, Hb.
  apply truthy_float_iff in Ha0, Hb0. rewrite Ha0, Hb0. cbn [andb].
  repeat case_cmp; repeat split; intros; try reflexivity; try contradiction; lra.
Qed.

(** Absent operands, or zero liabilities, leave the score and the factors as
    they are. *)
Lemma analyze_liquidity_skipped (env : Env) (k : FinancialKPI) (l : Locals) :
  current_assets k = None \/ current_liabilities k = None
  \/ current_liabilities k = Some 0 ->
  analyze_liquidity env k l = l.
Proof.
  unfold analyze_liquidity.
  intros [H | [H | H]]; rewrite H; destruct (current_assets k); try reflexivity.
  cbn. rewrite andb_false_r. reflexivity.
Qed.

(** C6 (the failing input).  With current assets 0 and current liabilities
    100 the liquidity block changes nothing: the score stays at the baseline
    5.0 and no negative factor is recorded, where a ratio below 1.0 calls for
    a penalty of 1.0 and the factor "Liquidez insuficiente"; current assets
    of 1 against the same liabilities do get both. *)
Theorem C6_zero_current_assets_unpenalised :
  forall (env : Env) (l : Locals),
    analyze_liquidity env zero_assets_kpi l = l
    /\ fst (_analyze_financial_health env (state_with_kpi zero_assets_kpi)) == 5.0
    /\ negative (snd (_analyze_financial_health env (state_with_kpi zero_assets_kpi))) = []
    /\ fst (_analyze_financial_health env
              (state_with_kpi (kpi_with_liquidity (Some 1) (Some 100)))) == 4.0
    /\ negative (snd (_analyze_financial_health env
                        (state_with_kpi (kpi_with_liquidity (Some 1) (Some 100)))))
       = [Py.lit "Liquidez insuficiente: " ++ format_float env (Py.fixed 2) (1 / 100)].
Proof.
  intros env l. repeat split.
Qed.

(** ** The non-financial risk scorer *)

Lemma contains_nonempty (sub s : string) :
  Py.truthy_str sub = true -> Py.contains sub (Py.lower s) = true -> Py.truthy_str s = true.
Proof.
  destruct s; [|reflexivity]. destruct sub; [discriminate|]. cbn. discriminate.
Qed.

Lemma years_operating_ge (now_ registration : datetime) (years : Z) :
  (years * 365 <= timedelta_days (now_ - registration))%Z ->
  inject_Z years <= years_operating_at now_ registration.
Proof.
  intros Hdays. unfold years_operating_at, Py.float.
  apply Qle_shift_div_l; [reflexivity|].
  change 365 with (inject_Z 365). rewrite <- inject_Z_mult.
  rewrite <- Zle_Qle. exact Hdays.
Qed.

(** C7.  With no web-search result and a registry record whose legal status
    contains "ativa" and whose registration lies 6 years back, the
    non-financial score is exactly 8.0 (7.0 plus 1.0 for longevity), the
    positive list holds the active-status note and the longevity factor, and
    the negative list is empty. *)
Theorem C7_active_six_year_old_company :
  forall (env : Env) (now_ : datetime) (state : AgentState)
         (company : CompanyData) (situation : string) (registration : datetime),
    web_search_results state = [] ->
    company_data state = Some company ->
    legal_situation company = Some situation ->
    Py.contains (Py.lit "ativa") (Py.lower situation) = true ->
    registration_date company = Some registration ->
    registered_years_ago 6 now_ registration ->
    fst (_analyze_non_financial_risks env now_ state) == 8.0
    /\ positive (snd (_analyze_non_financial_risks env now_ state))
       = [Py.lit "Empresa com situação cadastral ativa";
          Py.lit "Empresa estabelecida: "
          ++ format_float env (Py.fixed 1) (years_operating_at now_ registration)
          ++ Py.lit " anos de operação"]
    /\ negative (snd (_analyze_non_financial_risks env now_ state)) = [].
Proof.
  intros env now_ state company situation registration
    Hweb Hcompany Hsituation Hactive Hdate [Hyears _].
  assert (Hge : Py.ge (years_operating_at now_ registration) 5 = true).
  { apply ge_true_iff.
    apply Qle_trans with (inject_Z 6); [discriminate|].
    apply years_operating_ge, Hyears. }
  unfold _analyze_non_financial_risks, analyze_evidence, analyze_company.
  rewrite Hweb, Hcompany.
  unfold analyze_legal_situation, analyze_longevity.
  rewrite Hsituation, Hdate, Hactive, Hge.
  rewrite (contains_nonempty (Py.lit "ativa") situation eq_refl Hactive).
  repeat split.
Qed.

Lemma C7_active_six_year_old_company_witness :
  fst (_analyze_non_financial_risks (sample_env six_years_later None)
         six_years_later active_state) == 8.0
  /\ positive (snd (_analyze_non_financial_risks (sample_env six_years_later None)
                      six_years_later active_state))
     = [Py.lit "Empresa com situação cadastral ativa";
        Py.lit "Empresa estabelecida: "
        ++ format_float (sample_env six_years_later None) (Py.fixed 1)
             (years_operating_at six_years_later 0%Z)
        ++ Py.lit " anos de operação"]
  /\ negative (snd (_analyze_non_financial_risks (sample_env six_years_later None)
                      six_years_later active_state)) = [].
Proof.
  apply (C7_active_six_year_old_company (sample_env six_years_later None)
           six_years_later active_state active_company "ATIVA" 0%Z);
    try reflexivity.
  unfold registered_years_ago. vm_compute. split; discriminate.
Defined.

(** ** Upper bounds of the scores *)

Ltac case_guards :=
  repeat match goal with
         | |- context [match ?x with Some _ => _ | None => _ end] => destruct x
         | |- context [if Py.truthy_float ?a && Py.truthy_float ?b then _ else _] =>
             destruct (Py.truthy_float a && Py.truthy_float b)
         | |- context [if Py.ge ?a ?b then _ else _] => destruct (Py.ge a b)
         | |- context [if Py.le ?a ?b then _ else _] => destruct (Py.le a b)
         | |- context [if Py.lt ?a ?b then _ else _] => destruct (Py.lt a b)
         end.

Lemma analyze_roa_bound (env : Env) (k : FinancialKPI) (l : Locals) :
  l_score (analyze_roa env k l) <= l_score l + 1.5.
Proof. unfold analyze_roa. case_guards; cbn [l_score credit debit]; lra. Qed.

Lemma analyze_debt_bound (env : Env) (k : FinancialKPI) (l : Locals) :
  l_score (analyze_debt env k l) <= l_score l + 1.0.
Proof. unfold analyze_debt. case_guards; cbn [l_score credit debit]; lra. Qed.

Lemma analyze_liquidity_bound (env : Env) (k : FinancialKPI) (l : Locals) :
  l_score (analyze_liquidity env k l) <= l_score l + 0.8.
Proof. unfold analyze_liquidity. case_guards; cbn [l_score credit debit]; lra. Qed.

Lemma analyze_margin_bound (env : Env) (k : FinancialKPI) (l : Locals) :
  l_score (analyze_margin env k l) <= l_score l + 1.0.
Proof. unfold analyze_margin. case_guards; cbn [l_score credit debit]; lra. Qed.

Lemma analyze_latest_kpi_bound (env : Env) (k : FinancialKPI) (l : Locals) :
  l_score (analyze_latest_kpi env k l) <= l_score l + 4.3.
Proof.
  unfold analyze_latest_kpi.
  pose proof (analyze_roa_bound env k l).
  pose proof (analyze_debt_bound env k (analyze_roa env k l)).
  pose proof (analyze_liquidity_bound env k (analyze_debt env k (analyze_roa env k l))).
  pose proof (analyze_margin_bound env k
                (analyze_liquidity env k (analyze_debt env k (analyze_roa env k l)))).
  lra.
Qed.

Lemma clamp_bound (x b : Q) : 0 <= b -> x <= b -> clamp x <= b.
Proof.
  intros Hb Hx. unfold clamp. apply Q.max_lub; [exact Hb|].
  apply Qle_trans with x; [apply Q.le_min_r | exact Hx].
Qed.

Lemma clamp_not_binding (x : Q) : x < 10 -> Qmin 10 x == x.
Proof. intros Hx. apply Q.min_r. lra. Qed.

Lemma analyze_financial_health_bound (env : Env) (state : AgentState) :
  fst (_analyze_financial_health env state) <= 9.3.
Proof.
  unfold _analyze_financial_health.
  destruct (Py.is_empty (document_analysis state)); [cbn; lra|].
  destruct (flat_map financial_kpis (document_analysis state)) as [|first rest] eqn:E;
    [cbn; lra|].
  cbn [fst finish]. apply clamp_bound; [lra|].
  pose proof (analyze_latest_kpi_bound env (last (first :: rest) first) financial_start) as H.
  cbn [l_score financial_start] in H. unfold financial_start in H. lra.
Qed.

Lemma analyze_company_bound (env : Env) (now_ : datetime) (state : AgentState) (l : Locals) :
  l_score (analyze_company env now_ state l) <= l_score l + 1.0.
Proof.
  unfold analyze_company, analyze_longevity, analyze_legal_situation.
  destruct (company_data state) as [company|]; [|lra].
  destruct (legal_situation company) as [situation|];
    [destruct (Py.truthy_str situation && Py.contains (Py.lit "ativa") (Py.lower situation))|];
    case_guards; cbn [l_score credit debit note_positive]; lra.
Qed.

Lemma penalty_nonneg (n : Z) (rate cap : Q) :
  (n >? 0)%Z = true -> 0 <= rate -> 0 <= cap -> 0 <= Qmin (Py.float n * rate) cap.
Proof.
  intros Hn Hrate Hcap. apply Q.min_glb; [|exact Hcap].
  apply Qmult_le_0_compat; [|exact Hrate].
  unfold Py.float. change 0 with (inject_Z 0). rewrite <- Zle_Qle. lia.
Qed.

Lemma analyze_web_bound (env : Env) (c : Counters) (l : Locals) :
  l_score (analyze_web c l) <= l_score l + 1.0.
Proof.
  unfold analyze_web.
  destruct (legal_issues c >? 0)%Z eqn:Hlegal;
    destruct (negative_news c >? 0)%Z eqn:Hnews;
    destruct (positive_mentions c >? 0)%Z eqn:Hpositive;
    cbn [l_score credit debit];
    try pose proof (penalty_nonneg _ 1.5 3.0 Hlegal ltac:(lra) ltac:(lra));
    try pose proof (penalty_nonneg _ 1.0 2.0 Hnews ltac:(lra) ltac:(lra));
    try pose proof (Q.le_min_r (Py.float (positive_mentions c) * 0.5) 1.0);
    lra.
Qed.

Lemma analyze_evidence_bound (env : Env) (now_ : datetime) (state : AgentState) (l : Locals) :
  l_score (analyze_evidence env now_ state l) <= l_score l + 2.0.
Proof.
  unfold analyze_evidence.
  pose proof (analyze_company_bound env now_ state l).
  pose proof (analyze_web_bound env (scan_results (web_search_results state))
                (analyze_company env now_ state l)).
  lra.
Qed.

Lemma analyze_non_financial_risks_bound (env : Env) (now_ : datetime) (state : AgentState) :
  fst (_analyze_non_financial_risks env now_ state) <= 9.0.
Proof.
  unfold _analyze_non_financial_risks. cbn [fst finish].
  apply clamp_bound; [lra|].
  pose proof (analyze_evidence_bound env now_ state non_financial_start) as H.
  unfold non_financial_start in H. cbn [l_score] in H.
  unfold non_financial_start. lra.
Qed.

Example best_kpi_reaches_the_bound :
  forall env : Env,
    fst (_analyze_financial_health env (state_with_kpi best_kpi)) == 9.3.
Proof. intros env. reflexivity. Qed.

(** C10.  The financial sub-score never exceeds 9.3 and the non-financial
    sub-score never exceeds 9.0, so the overall score 0.7 * financial + 0.3 *
    non-financial never exceeds 9.21, in particular the one stored in the
    assessment; the score a scorer reaches before its clamp is below 10, so
    that the upper clamp returns it unchanged. *)
Theorem C10_score_upper_bounds :
  forall (env : Env) (now_ : datetime) (state : AgentState) (latest_kpi : FinancialKPI)
         (text : string),
    fst (_analyze_financial_health env state) <= 9.3
    /\ fst (_analyze_non_financial_risks env now_ state) <= 9.0
    /\ overall_of (fst (_analyze_financial_health env state))
                  (fst (_analyze_non_financial_risks env now_ state)) <= 9.21
    /\ overall_risk_score (assessment_of env now_ state text) <= 9.21
    /\ Qmin 10 (l_score (analyze_latest_kpi env latest_kpi financial_start))
       == l_score (analyze_latest_kpi env latest_kpi financial_start)
    /\ Qmin 10 (l_score (analyze_evidence env now_ state non_financial_start))
       == l_score (analyze_evidence env now_ state non_financial_start).
Proof.
  intros env now_ state latest_kpi text.
  pose proof (analyze_financial_health_bound env state) as Hf.
  pose proof (analyze_non_financial_risks_bound env now_ state) as Hn.
  pose proof (analyze_latest_kpi_bound env latest_kpi financial_start) as Hk.
  pose proof (analyze_evidence_bound env now_ state non_financial_start) as He.
  cbn [l_score financial_start non_financial_start] in Hk, He.
  repeat split; try assumption.
  - unfold overall_of. lra.
  - unfold assessment_of, overall_of. cbn [overall_risk_score]. lra.
  - apply clamp_not_binding. lra.
  - apply clamp_not_binding. lra.
Qed.

(** ** The scoring stage *)

Lemma clamp_range (x : Q) : 0 <= clamp x <= 10.
Proof.
  unfold clamp. split.
  - apply Q.le_max_l.
  - apply Q.max_lub; [discriminate | apply Q.le_min_l].
Qed.

Lemma analyze_financial_health_range (env : Env) (state : AgentState) :
  0 <= fst (_analyze_financial_health env state) <= 10.
Proof.
  unfold _analyze_financial_health.
  destruct (Py.is_empty (document_analysis state)); [cbn; lra|].
  destruct (flat_map financial_kpis (document_analysis state)); [cbn; lra|].
  apply clamp_range.
Qed.

Lemma analyze_non_financial_risks_range (env : Env) (now_ : datetime) (state : AgentState) :
  0 <= fst (_analyze_non_financial_risks env now_ state) <= 10.
Proof. apply clamp_range. Qed.

Lemma new_RiskAnalysis_of (env : Env) (now_ : datetime) (state : AgentState)
      (text : string) (w : World) :
  confidence_valid state = true ->
  new_RiskAnalysis (assessment_of env now_ state text) w
  = (Ok (assessment_of env now_ state text), w).
Proof.
  intros Hconf. unfold new_RiskAnalysis, assessment_of.
  cbn [financial_health_score non_financial_risk_score overall_risk_score confidence_level].
  pose proof (analyze_financial_health_range env state) as [Hf0 Hf10].
  pose proof (analyze_non_financial_risks_range env now_ state) as [Hn0 Hn10].
  assert (Ho : 0 <= overall_of (fst (_analyze_financial_health env state))
                               (fst (_analyze_non_financial_risks env now_ state)) <= 10)
    by (unfold overall_of; split; lra).
  destruct Ho as [Ho0 Ho10].
  apply le_true_iff in Hf0, Hf10, Hn0, Hn10, Ho0, Ho10.
  rewrite Hf0, Hf10, Hn0, Hn10, Ho0, Ho10.
  unfold confidence_valid in Hconf. rewrite Hconf.
  assert (H1 : Py.le (_calculate_confidence_level state) 1 = true).
  { apply le_true_iff. unfold _calculate_confidence_level.
    match goal with |- Qmin ?c _ <= _ => pose proof (Q.le_min_r c 1.0) end. lra. }
  rewrite H1. reflexivity.
Qed.

(** The narrative of an assessment: the reply of the language model at the
    interaction [t], or the templated sentence. *)
Lemma generate_detailed_analysis_eq (env : Env) (f n : Q) (w : World) :
  exists text,
    _generate_detailed_analysis env f n w
    = (Ok text, {| w_state := w_state w; w_ticks := S (w_ticks w) |})
    /\ (forall reply, llm_ainvoke env (w_ticks w) = Some reply -> text = reply).
Proof.
  unfold _generate_detailed_analysis, bind, tick, ret. cbn [w_state w_ticks].
  destruct (llm_ainvoke env (w_ticks w)) as [reply|]; eexists; split;
    try reflexivity; intros; congruence.
Qed.

(** The scoring stage succeeds on a state of valid confidence: it stores
    the assessment of the state, appends notes and makes one external
    interaction; nothing else changes. *)
Lemma risk_analyst_body_ok (env : Env) (w : World) :
  confidence_valid (w_state w) = true ->
  exists text notes,
    RiskAnalystAgent.body env w
    = (Ok tt,
       {| w_state :=
            set_processing_notes notes
              (set_risk_analysis
                 (Some (assessment_of env (now env (w_ticks w)) (w_state w) text))
                 (w_state w));
          w_ticks := S (w_ticks w) |})
    /\ (forall reply, llm_ainvoke env (w_ticks w) = Some reply -> text = reply).
Proof.
  intros Hconf.
  unfold RiskAnalystAgent.body, bind at 1 2, BaseAgent.add_processing_note at 1,
    modify at 1, get_state.
  cbn [w_state w_ticks].
  set (s1 := set_processing_notes _ (w_state w)).
  rewrite (surjective_pairing (_analyze_financial_health env s1)).
  unfold bind at 1, get_ticks. cbn [w_state w_ticks].
  rewrite (surjective_pairing (_analyze_non_financial_risks env (now env (w_ticks w)) s1)).
  unfold bind at 1.
  destruct (generate_detailed_analysis_eq env
              (fst (_analyze_financial_health env s1))
              (fst (_analyze_non_financial_risks env (now env (w_ticks w)) s1))
              {| w_state := s1; w_ticks := w_ticks w |}) as (text & Htext & Hreply).
  rewrite Htext. cbn [w_state w_ticks].
  exists text. eexists. split; [|exact Hreply].
  unfold bind at 1.
  change (new_RiskAnalysis _)
    with (new_RiskAnalysis (assessment_of env (now env (w_ticks w)) s1 text)).
  rewrite new_RiskAnalysis_of by exact Hconf.
  reflexivity.
Qed.

Lemma assessment_of_evidence (env : Env) (now_ : datetime) (s s' : AgentState)
      (text : string) :
  same_evidence s s' -> assessment_of env now_ s text = assessment_of env now_ s' text.
Proof.
  intros (Hcompany & Hweb & Hdocs).
  unfold assessment_of, _analyze_financial_health, _analyze_non_financial_risks,
    analyze_evidence, analyze_company, _calculate_confidence_level.
  rewrite Hcompany, Hweb, Hdocs. reflexivity.
Qed.

Lemma confidence_valid_evidence (s s' : AgentState) :
  same_evidence s s' -> confidence_valid s = confidence_valid s'.
Proof.
  intros (Hcompany & Hweb & Hdocs).
  unfold confidence_valid, _calculate_confidence_level.
  rewrite Hcompany, Hweb, Hdocs. reflexivity.
Qed.

Lemma consume_feedback_evidence (s : AgentState) : same_evidence s (consume_feedback s).
Proof.
  unfold consume_feedback, same_evidence.
  destruct (quality_validation s) as [qv|]; [|auto].
  destruct (feedback qv) as [text|]; [|auto].
  destruct (Py.truthy_str text); auto.
Qed.

Lemma risk_analyst_node_prelude (env : Env) (w : World) :
  CreditAnalysisGraph._risk_analyst_node env w
  = try_except (RiskAnalystAgent.execute env) (fun e => raise e)
      {| w_state := consume_feedback (w_state w); w_ticks := w_ticks w |}.
Proof.
  unfold CreditAnalysisGraph._risk_analyst_node, consume_feedback, try_except,
    bind, get_state, modify, ret.
  cbn [w_state w_ticks].
  destruct w as [s t]. cbn [w_state w_ticks].
  destruct (quality_validation s) as [qv|]; [|reflexivity].
  destruct (feedback qv) as [text|]; [|reflexivity].
  destruct (Py.truthy_str text); reflexivity.
Qed.

(** The scoring node succeeds on a state of valid confidence. *)
Lemma risk_analyst_node_ok (env : Env) (w : World) :
  confidence_valid (w_state w) = true ->
  exists text notes,
    CreditAnalysisGraph._risk_analyst_node env w
    = (Ok tt,
       {| w_state :=
            set_processing_notes notes
              (set_risk_analysis
                 (Some (assessment_of env (now env (w_ticks w)) (w_state w) text))
                 (consume_feedback (w_state w)));
          w_ticks := S (w_ticks w) |})
    /\ (forall reply, llm_ainvoke env (w_ticks w) = Some reply -> text = reply).
Proof.
  intros Hconf. rewrite risk_analyst_node_prelude.
  pose proof (consume_feedback_evidence (w_state w)) as Hevidence.
  destruct (risk_analyst_body_ok env
              {| w_state := consume_feedback (w_state w); w_ticks := w_ticks w |})
    as (text & notes & Hbody & Hreply).
  { cbn [w_state]. rewrite <- (confidence_valid_evidence _ _ Hevidence). exact Hconf. }
  exists text, notes. split; [|exact Hreply].
  unfold try_except, RiskAnalystAgent.execute.
  rewrite (execute_ok _ _ _ _ _ Hbody). cbn [w_state w_ticks].
  rewrite <- (assessment_of_evidence env _ _ _ text Hevidence). reflexivity.
Qed.

(** C9.  Two runs of the scoring stage on states with the same upstream
    evidence (registry record, web-search results, document analyses), read
    at the same instant, both succeed and store assessments with identical
    positive-factor lists and identical negative-factor lists, whatever the
    language model answers; a run leaves the evidence as it was, so that the
    second run may start from the state the first one left.  The quality
    feedback plays no part. *)
Theorem C9_scoring_twice_same_factors :
  forall (env : Env) (w w' : World),
    same_evidence (w_state w) (w_state w') ->
    now env (w_ticks w) = now env (w_ticks w') ->
    confidence_valid (w_state w) = true ->
    exists v v' ra ra',
      CreditAnalysisGraph._risk_analyst_node env w = (Ok tt, v)
      /\ CreditAnalysisGraph._risk_analyst_node env w' = (Ok tt, v')
      /\ risk_analysis (w_state v) = Some ra
      /\ risk_analysis (w_state v') = Some ra'
      /\ positive_factors ra = positive_factors ra'
      /\ negative_factors ra = negative_factors ra'
      /\ same_evidence (w_state w) (w_state v).
Proof.
  intros env w w' Hevidence Hnow Hconf.
  destruct (risk_analyst_node_ok env w Hconf) as (text & notes & Hrun & _).
  destruct (risk_analyst_node_ok env w') as (text' & notes' & Hrun' & _).
  { rewrite <- (confidence_valid_evidence _ _ Hevidence). exact Hconf. }
  do 4 eexists. split; [exact Hrun|]. split; [exact Hrun'|].
  cbn [w_state risk_analysis set_processing_notes set_risk_analysis].
  split; [reflexivity|]. split; [reflexivity|].
  rewrite <- Hnow.
  rewrite <- (assessment_of_evidence env _ _ _ text' Hevidence).
  repeat split; apply (consume_feedback_evidence (w_state w)).
Qed.

Lemma C9_scoring_twice_same_factors_witness :
  exists v v' ra ra',
    CreditAnalysisGraph._risk_analyst_node (sample_env six_years_later (Some "ok"))
      (world_of active_state) = (Ok tt, v)
    /\ CreditAnalysisGraph._risk_analyst_node (sample_env six_years_later (Some "ok"))
         (snd (CreditAnalysisGraph._risk_analyst_node
                 (sample_env six_years_later (Some "ok")) (world_of active_state)))
       = (Ok tt, v')
    /\ risk_analysis (w_state v) = Some ra
    /\ risk_analysis (w_state v') = Some ra'
    /\ positive_factors ra = positive_factors ra'
    /\ negative_factors ra = negative_factors ra'
    /\ same_evidence (w_state (world_of active_state)) (w_state v).
Proof.
  apply (C9_scoring_twice_same_factors (sample_env six_years_later (Some "ok"))
           (world_of active_state)
           (snd (CreditAnalysisGraph._risk_analyst_node
                   (sample_env six_years_later (Some "ok")) (world_of active_state)))).
  - repeat split.
  - reflexivity.
  - reflexivity.
Defined.

(** ** What the stages do to the retry counter *)

Section Frames.

Variable R : AgentState -> AgentState -> Prop.
Hypothesis R_refl : forall s, R s s.
Hypothesis R_trans : forall s1 s2 s3, R s1 s2 -> R s2 s3 -> R s1 s3.

Lemma keeps_ret {A} (a : A) : keeps R (ret a).
Proof. intros w. apply R_refl. Qed.

Lemma keeps_raise {A} (e : Py.exn) : keeps R (@raise A e).
Proof. intros w. apply R_refl. Qed.

Lemma keeps_get_state : keeps R get_state.
Proof. intros w. apply R_refl. Qed.

Lemma keeps_get_ticks : keeps R get_ticks.
Proof. intros w. apply R_refl. Qed.

Lemma keeps_tick : keeps R tick.
Proof. intros w. apply R_refl. Qed.

Lemma keeps_modify (f : AgentState -> AgentState) :
  (forall s, R s (f s)) -> keeps R (modify f).
Proof. intros Hf w. apply Hf. Qed.

Lemma keeps_bind {A B} (m : M A) (k : A -> M B) :
  keeps R m -> (forall a, keeps R (k a)) -> keeps R (bind m k).
Proof.
  intros Hm Hk w. unfold bind. specialize (Hm w).
  destruct (m w) as [[a|e] w1]; cbn [snd] in *.
  - eapply R_trans; [exact Hm | apply Hk].
  - exact Hm.
Qed.

Lemma keeps_try_except {A} (m : M A) (handler : Py.exn -> M A) :
  keeps R m -> (forall e, keeps R (handler e)) -> keeps R (try_except m handler).
Proof.
  intros Hm Hh w. unfold try_except. specialize (Hm w).
  destruct (m w) as [[a|e] w1]; cbn [snd] in *.
  - exact Hm.
  - eapply R_trans; [exact Hm | apply Hh].
Qed.

End Frames.

Lemma counters_kept_refl (s : AgentState) : counters_kept s s.
Proof. split; reflexivity. Qed.

Lemma counters_kept_trans (s1 s2 s3 : AgentState) :
  counters_kept s1 s2 -> counters_kept s2 s3 -> counters_kept s1 s3.
Proof. unfold counters_kept. intros [? ?] [? ?]. split; congruence. Qed.

Lemma counters_grow_refl (s : AgentState) : counters_grow s s.
Proof. split; [lia | reflexivity]. Qed.

Lemma counters_grow_trans (s1 s2 s3 : AgentState) :
  counters_grow s1 s2 -> counters_grow s2 s3 -> counters_grow s1 s3.
Proof. unfold counters_grow. intros [? ?] [? ?]. split; [lia | congruence]. Qed.

Lemma counters_kept_grow {A} (m : M A) : keeps counters_kept m -> keeps counters_grow m.
Proof. intros H w. destruct (H w) as [Hc Hm]. split; [lia | exact Hm]. Qed.

(** Steps of a frame proof: the combinators, then the case a branch depends
    on. *)
Ltac frame_step refl trans :=
  first
    [ apply keeps_ret; exact refl
    | apply keeps_raise; exact refl
    | apply keeps_get_state; exact refl
    | apply keeps_get_ticks; exact refl
    | apply keeps_tick; exact refl
    | apply keeps_modify; intros; split; reflexivity
    | apply keeps_bind; [exact trans | | intros]
    | apply keeps_try_except; [exact trans | | intros]
    | match goal with
      | |- keeps _ (match ?x with _ => _ end) => destruct x
      | |- keeps _ (if ?x then _ else _) => destruct x
      end ].

Ltac frame := repeat frame_step counters_kept_refl counters_kept_trans.

Lemma add_processing_note_keeps (name note : string) :
  keeps counters_kept (BaseAgent.add_processing_note name note).
Proof. unfold BaseAgent.add_processing_note. frame. Qed.

Lemma risk_analyst_body_keeps (env : Env) : keeps counters_kept (RiskAnalystAgent.body env).
Proof.
  unfold RiskAnalystAgent.body, _generate_detailed_analysis, new_RiskAnalysis.
  frame; apply add_processing_note_keeps.
Qed.

Lemma quality_assurance_body_keeps (env : Env) :
  keeps counters_kept (QualityAssuranceAgent.body env).
Proof.
  unfold QualityAssuranceAgent.body, QualityAssuranceAgent._generate_feedback,
    QualityAssuranceAgent._generate_validation_notes, new_QualityValidation.
  frame; apply add_processing_note_keeps.
Qed.

Lemma data_gatherer_body_keeps (env : Env) : keeps counters_kept (DataGathererAgent.body env).
Proof.
  unfold DataGathererAgent.body, DataGathererAgent._get_company_data,
    DataGathererAgent._search_web_information, DataGathererAgent.search.
  frame; apply add_processing_note_keeps.
Qed.

Lemma analyze_documents_keeps (env : Env) (docs : list Document) :
  keeps counters_kept (DocumentAnalystAgent.analyze_documents env docs).
Proof.
  induction docs as [|doc docs IH]; cbn [DocumentAnalystAgent.analyze_documents].
  - frame.
  - frame. exact IH.
Qed.

Lemma document_analyst_body_keeps (env : Env) :
  keeps counters_kept (DocumentAnalystAgent.body env).
Proof.
  unfold DocumentAnalystAgent.body.
  frame; first [apply add_processing_note_keeps | apply analyze_documents_keeps].
Qed.

Lemma increment_retry_counts (name : string) (w : World) :
  retry_count (w_state (snd (BaseAgent.increment_retry name w)))
  = (retry_count (w_state w) + 1)%Z
  /\ max_retries (w_state (snd (BaseAgent.increment_retry name w)))
     = max_retries (w_state w)
  /\ fst (BaseAgent.increment_retry name w) = Ok tt.
Proof. repeat split. Qed.

Lemma handle_error_retries (name : string) (execute : M unit) (error : Py.exn) (w : World) :
  BaseAgent.should_retry (w_state w) = true ->
  exists w1,
    BaseAgent.handle_error name execute error w = execute w1
    /\ retry_count (w_state w1) = (retry_count (w_state w) + 1)%Z
    /\ max_retries (w_state w1) = max_retries (w_state w).
Proof.
  intros Hretry.
  unfold BaseAgent.handle_error, bind, BaseAgent.add_processing_note, modify, get_state.
  cbn [w_state w_ticks].
  change (BaseAgent.should_retry (set_processing_notes _ (w_state w)))
    with (BaseAgent.should_retry (w_state w)).
  rewrite Hretry.
  unfold BaseAgent.increment_retry, bind, BaseAgent.add_processing_note, modify, get_state.
  cbn [w_state w_ticks]. eexists. split; [reflexivity|]. split; reflexivity.
Qed.

Lemma handle_error_exhausted (name : string) (execute : M unit) (error : Py.exn) (w : World) :
  BaseAgent.should_retry (w_state w) = false ->
  exists w1,
    BaseAgent.handle_error name execute error w = (Raise error, w1)
    /\ retry_count (w_state w1) = retry_count (w_state w)
    /\ max_retries (w_state w1) = max_retries (w_state w).
Proof.
  intros Hretry.
  unfold BaseAgent.handle_error, bind, BaseAgent.add_processing_note, modify, get_state.
  cbn [w_state w_ticks].
  change (BaseAgent.should_retry (set_processing_notes _ (w_state w)))
    with (BaseAgent.should_retry (w_state w)).
  rewrite Hretry. eexists. split; [reflexivity|]. split; reflexivity.
Qed.

Lemma handle_error_grows (name : string) (execute : M unit) (error : Py.exn) :
  keeps counters_grow execute ->
  keeps counters_grow (BaseAgent.handle_error name execute error).
Proof.
  intros Hexecute w.
  destruct (BaseAgent.should_retry (w_state w)) eqn:Hretry.
  - destruct (handle_error_retries name execute error w Hretry) as (w1 & -> & Hc & Hm).
    destruct (Hexecute w1) as [Hc1 Hm1]. split; [lia | congruence].
  - destruct (handle_error_exhausted name execute error w Hretry) as (w1 & -> & Hc & Hm).
    cbn [snd]. split; [lia | congruence].
Qed.

Lemma execute_depth_grows (name : string) (body : M unit) :
  keeps counters_kept body ->
  forall depth, keeps counters_grow (BaseAgent.execute_depth name body depth).
Proof.
  intros Hbody depth.
  induction depth as [|depth IH]; cbn [BaseAgent.execute_depth];
    (apply keeps_try_except;
     [ exact counters_grow_trans
     | apply counters_kept_grow, Hbody
     | intros e; apply handle_error_grows ]).
  - apply keeps_raise, counters_grow_refl.
  - exact IH.
Qed.

Lemma execute_grows (name : string) (body : M unit) :
  keeps counters_kept body -> keeps counters_grow (BaseAgent.execute name body).
Proof.
  intros Hbody w. unfold BaseAgent.execute. apply execute_depth_grows, Hbody.
Qed.

(** The recursion of [execute] never outruns the retry budget. *)
Lemma execute_depth_within_budget (name : string) (body : M unit) :
  keeps counters_kept body ->
  (forall w, fst (body w) <> Raise Py.RecursionError) ->
  forall depth w,
    (BaseAgent.retry_budget (w_state w) <= depth)%nat ->
    fst (BaseAgent.execute_depth name body depth w) <> Raise Py.RecursionError.
Proof.
  intros Hkeeps Hbody depth.
  induction depth as [|depth IH]; intros w Hbudget;
    cbn [BaseAgent.execute_depth]; unfold try_except;
    specialize (Hbody w); specialize (Hkeeps w);
    destruct (body w) as [[u|e] w1] eqn:Hrun; cbn [fst snd] in *;
    try discriminate; destruct Hkeeps as [Hc Hm];
    destruct (BaseAgent.should_retry (w_state w1)) eqn:Hretry.
  - unfold BaseAgent.should_retry in Hretry. apply Z.ltb_lt in Hretry.
    unfold BaseAgent.retry_budget in Hbudget. lia.
  - destruct (handle_error_exhausted name (raise Py.RecursionError) e w1 Hretry)
      as (w2 & -> & _). exact Hbody.
  - destruct (handle_error_retries name (BaseAgent.execute_depth name body depth) e w1 Hretry)
      as (w2 & -> & Hc2 & Hm2).
    apply IH. unfold BaseAgent.retry_budget in *. lia.
  - destruct (handle_error_exhausted name (BaseAgent.execute_depth name body depth)
                e w1 Hretry) as (w2 & -> & _). exact Hbody.
Qed.

Lemma run_node_grows (env : Env) (n : CreditAnalysisGraph.node) :
  keeps counters_grow (CreditAnalysisGraph.run_node env n).
Proof.
  destruct n; cbn [CreditAnalysisGraph.run_node];
    unfold CreditAnalysisGraph._data_gatherer_node,
      CreditAnalysisGraph._document_analyst_node,
      CreditAnalysisGraph._quality_assurance_node.
  - apply keeps_try_except;
      [exact counters_grow_trans | | intros; apply keeps_raise, counters_grow_refl].
    apply execute_grows, data_gatherer_body_keeps.
  - apply keeps_try_except;
      [exact counters_grow_trans | | intros; apply keeps_raise, counters_grow_refl].
    apply execute_grows, document_analyst_body_keeps.
  - intros w. rewrite risk_analyst_node_prelude.
    assert (Hpre : counters_grow (w_state w) (consume_feedback (w_state w))).
    { unfold consume_feedback.
      destruct (quality_validation (w_state w)) as [qv|]; [|apply counters_grow_refl].
      destruct (feedback qv) as [text|]; [|apply counters_grow_refl].
      destruct (Py.truthy_str text); [|apply counters_grow_refl].
      split; cbn; [lia | reflexivity]. }
    eapply counters_grow_trans; [exact Hpre|].
    apply (keeps_try_except counters_grow counters_grow_trans
             (RiskAnalystAgent.execute env) (fun e => raise e)
             (execute_grows _ _ (risk_analyst_body_keeps env))
             (fun e => keeps_raise _ counters_grow_refl e)
             {| w_state := consume_feedback (w_state w); w_ticks := w_ticks w |}).
  - apply keeps_try_except;
      [exact counters_grow_trans | | intros; apply keeps_raise, counters_grow_refl].
    apply execute_grows, quality_assurance_body_keeps.
Qed.

Lemma execute_within_budget (name : string) (body : M unit) :
  keeps counters_kept body ->
  (forall w, fst (body w) <> Raise Py.RecursionError) ->
  forall w, fst (BaseAgent.execute name body w) <> Raise Py.RecursionError.
Proof.
  intros Hkeeps Hbody w. unfold BaseAgent.execute.
  apply execute_depth_within_budget; auto.
Qed.

(** The scoring stage raises nothing but the validation error of the
    assessment. *)
Lemma risk_analyst_body_raises (env : Env) (w : World) (e : Py.exn) :
  fst (RiskAnalystAgent.body env w) = Raise e ->
  e = Py.ValidationError "validation error for RiskAnalysis".
Proof.
  unfold RiskAnalystAgent.body, bind at 1 2, BaseAgent.add_processing_note at 1,
    modify at 1, get_state.
  cbn [w_state w_ticks].
  set (s1 := set_processing_notes _ (w_state w)).
  rewrite (surjective_pairing (_analyze_financial_health env s1)).
  unfold bind at 1, get_ticks. cbn [w_state w_ticks].
  rewrite (surjective_pairing (_analyze_non_financial_risks env (now env (w_ticks w)) s1)).
  unfold bind at 1.
  destruct (generate_detailed_analysis_eq env
              (fst (_analyze_financial_health env s1))
              (fst (_analyze_non_financial_risks env (now env (w_ticks w)) s1))
              {| w_state := s1; w_ticks := w_ticks w |}) as (text & Htext & _).
  rewrite Htext. unfold bind at 1, new_RiskAnalysis.
  match goal with |- context [if ?c then _ else _] => destruct c end;
    cbn; intros H; congruence.
Qed.

Lemma risk_analyst_execute_within_budget (env : Env) (w : World) :
  fst (RiskAnalystAgent.execute env w) <> Raise Py.RecursionError.
Proof.
  apply execute_within_budget.
  - apply risk_analyst_body_keeps.
  - intros w0 H. apply risk_analyst_body_raises in H. discriminate.
Qed.

(** ** The retry loop of the graph *)

(** One round of the loop on the rejected request: the scoring node and the
    quality gate both return, the report is Rejected, and the retry counter
    is where it was. *)
Lemma loop_step (notes : list string) (ra : option RiskAnalysis)
      (qv : option QualityValidation) (t : nat) :
  (fst (CreditAnalysisGraph.run_node rejecting_env CreditAnalysisGraph.risk_analyst
          {| w_state := loop_state notes ra qv; w_ticks := t |}) = Ok tt
   /\ retry_count
        (w_state
           (snd (CreditAnalysisGraph.run_node rejecting_env CreditAnalysisGraph.risk_analyst
                   {| w_state := loop_state notes ra qv; w_ticks := t |}))) = 0%Z)
  /\ exists notes' ra' qv',
      CreditAnalysisGraph.run_node rejecting_env CreditAnalysisGraph.quality_assurance
        (snd (CreditAnalysisGraph.run_node rejecting_env CreditAnalysisGraph.risk_analyst
                {| w_state := loop_state notes ra qv; w_ticks := t |}))
      = (Ok tt, {| w_state := loop_state notes' (Some ra') (Some qv'); w_ticks := S (S t) |})
      /\ status qv' = REJECTED.
Proof.
  destruct qv as [[st checks [[|c text]|] vnotes]|];
    (split; [split; reflexivity|]); vm_compute; do 3 eexists; split; reflexivity.
Qed.

Lemma half_step (n : nat) : ((S (S n) + 1) / 2 = S ((n + 1) / 2))%nat.
Proof.
  replace (S (S n) + 1)%nat with (n + 1 + 1 * 2)%nat by lia.
  rewrite Nat.div_add by discriminate. lia.
Qed.

(** From the scoring node the graph never reaches [END]: it spends the whole
    recursion limit, one scoring pass every two steps. *)
Lemma loop_from_scoring (limit : nat) :
  forall (notes : list string) (ra : option RiskAnalysis)
         (qv : option QualityValidation) (t : nat),
    fst (fst (CreditAnalysisGraph.ainvoke_from rejecting_env limit
                CreditAnalysisGraph.risk_analyst
                {| w_state := loop_state notes ra qv; w_ticks := t |}))
    = Raise Py.GraphRecursionError
    /\ scoring_passes
         (snd (CreditAnalysisGraph.ainvoke_from rejecting_env limit
                 CreditAnalysisGraph.risk_analyst
                 {| w_state := loop_state notes ra qv; w_ticks := t |}))
       = ((limit + 1) / 2)%nat
    /\ retry_count
         (w_state
            (snd (fst (CreditAnalysisGraph.ainvoke_from rejecting_env limit
                         CreditAnalysisGraph.risk_analyst
                         {| w_state := loop_state notes ra qv; w_ticks := t |}))))
       = 0%Z.
Proof.
  induction limit as [limit IH] using lt_wf_ind. intros notes ra qv t.
  destruct limit as [|[|limit]].
  - repeat split.
  - destruct (loop_step notes ra qv t) as [[Hra Hcount] _].
    cbn [CreditAnalysisGraph.ainvoke_from].
    destruct (CreditAnalysisGraph.run_node rejecting_env CreditAnalysisGraph.risk_analyst
                {| w_state := loop_state notes ra qv; w_ticks := t |}) as [[u|e] w1];
      cbn [fst snd] in *; [|discriminate].
    repeat split. exact Hcount.
  - destruct (loop_step notes ra qv t) as [[Hra _] (notes' & ra' & qv' & Hqa & Hstatus)].
    specialize (IH limit ltac:(lia) notes' (Some ra') (Some qv') (S (S t))).
    cbn [CreditAnalysisGraph.ainvoke_from].
    destruct (CreditAnalysisGraph.run_node rejecting_env CreditAnalysisGraph.risk_analyst
                {| w_state := loop_state notes ra qv; w_ticks := t |}) as [[u|e] w1];
      cbn [fst snd] in *; [|discriminate].
    cbn [CreditAnalysisGraph.next_node]. rewrite Hqa.
    cbn [CreditAnalysisGraph.next_node w_state]. 
    unfold CreditAnalysisGraph._should_retry_analysis.
    cbn [quality_validation loop_state retry_count max_retries]. rewrite Hstatus.
    cbn [Z.ltb Z.compare].
    destruct (CreditAnalysisGraph.ainvoke_from rejecting_env limit
                CreditAnalysisGraph.risk_analyst
                {| w_state := loop_state notes' (Some ra') (Some qv'); w_ticks := S (S t) |})
      as [[r w2] ran].
    cbn [fst snd] in *. destruct IH as (Hr & Hpasses & Hcount).
    repeat split; try assumption.
    rewrite half_step, <- Hpasses. reflexivity.
Qed.

(** C1 (the failing input).  For a request with no registry data, no
    document and a two-character narrative, which the quality gate rejects
    on every pass, the graph never reaches its end: whatever the recursion
    limit of the library, the run spends it and raises, having made one
    scoring pass every two steps (12 passes under the default limit of 25,
    where the ceiling of 3 allows 4), and the retry counter is still 0 at
    the end, since the loop never increments it. *)
Theorem C1_rejected_request_never_finishes :
  (forall limit : nat,
      fst (fst (CreditAnalysisGraph.analyze_credit rejecting_env limit sample_cnpj []
                  "test-123"))
      = Raise Py.GraphRecursionError
      /\ scoring_passes
           (snd (CreditAnalysisGraph.analyze_credit rejecting_env limit sample_cnpj []
                   "test-123"))
         = ((limit - 1) / 2)%nat
      /\ retry_count
           (w_state
              (snd (fst (CreditAnalysisGraph.analyze_credit rejecting_env limit sample_cnpj
                           [] "test-123"))))
         = 0%Z)
  /\ max_retries (new_AgentState "test-123" sample_cnpj []) = 3%Z
  /\ scoring_passes
       (snd (CreditAnalysisGraph.analyze_credit rejecting_env
               CreditAnalysisGraph.default_recursion_limit sample_cnpj [] "test-123"))
     = 12%nat.
Proof.
  split; [|split; reflexivity].
  intros [|[|limit]]; try (repeat split; fail).
  unfold CreditAnalysisGraph.analyze_credit, CreditAnalysisGraph.entry_point.
  cbn [CreditAnalysisGraph.ainvoke_from].
  change (CreditAnalysisGraph.run_node rejecting_env CreditAnalysisGraph.data_gatherer
            {| w_state := new_AgentState "test-123" sample_cnpj []; w_ticks := 0 |})
    with (CreditAnalysisGraph.run_node rejecting_env CreditAnalysisGraph.data_gatherer
            {| w_state := loop_state [] None None; w_ticks := 0 |}).
  match goal with
  | |- context [CreditAnalysisGraph.run_node ?e CreditAnalysisGraph.data_gatherer ?w] =>
      let v := eval vm_compute in (CreditAnalysisGraph.run_node e CreditAnalysisGraph.data_gatherer w) in
      change (CreditAnalysisGraph.run_node e CreditAnalysisGraph.data_gatherer w) with v
  end.
  cbn [CreditAnalysisGraph.next_node w_state].
  match goal with
  | |- context [CreditAnalysisGraph.run_node ?e CreditAnalysisGraph.document_analyst ?w] =>
      let v := eval vm_compute in (CreditAnalysisGraph.run_node e CreditAnalysisGraph.document_analyst w) in
      change (CreditAnalysisGraph.run_node e CreditAnalysisGraph.document_analyst w) with v
  end.
  cbn [CreditAnalysisGraph.next_node w_state].
  match goal with
  | |- context [CreditAnalysisGraph.ainvoke_from ?e ?l ?n0 ?W] =>
      lazymatch W with
      | {| w_state := {| processing_notes := ?n |}; w_ticks := ?t |} =>
          pose (X := CreditAnalysisGraph.ainvoke_from e l n0
                       {| w_state := loop_state n None None; w_ticks := t |});
          change (CreditAnalysisGraph.ainvoke_from e l n0 W) with X;
          assert (H : fst (fst X) = Raise Py.GraphRecursionError
                      /\ scoring_passes (snd X) = ((limit + 1) / 2)%nat
                      /\ retry_count (w_state (snd (fst X))) = 0%Z)
            by exact (loop_from_scoring limit n None None t)
      end
  end.
  clearbody X.
  destruct X as [[r w2] ran].
  cbn [fst snd] in *. destruct H as (Hr & Hpasses & Hcount).
  repeat split; try assumption.
  unfold scoring_passes in *. cbn [List.filter CreditAnalysisGraph.node_eqb].
  rewrite Hpasses.
  replace (S (S limit) - 1)%nat with (limit + 1)%nat by lia. reflexivity.
Qed.

(** ** One retry counter for the stages and for the graph *)

Lemma should_retry_iff (state : AgentState) :
  BaseAgent.should_retry state = true <-> (retry_count state < max_retries state)%Z.
Proof. unfold BaseAgent.should_retry. apply Z.ltb_lt. Qed.

Lemma should_retry_analysis_iff (state : AgentState) (qv : QualityValidation) :
  quality_validation state = Some qv -> status qv = REJECTED ->
  (CreditAnalysisGraph._should_retry_analysis state = CreditAnalysisGraph.retry
   <-> (retry_count state < max_retries state)%Z).
Proof.
  intros Hqv Hstatus. unfold CreditAnalysisGraph._should_retry_analysis.
  rewrite Hqv, Hstatus.
  destruct (retry_count state <? max_retries state)%Z eqn:Hlt.
  - apply Z.ltb_lt in Hlt. split; auto.
  - apply Z.ltb_ge in Hlt. split; [discriminate | lia].
Qed.

Lemma consume_feedback_counters (state : AgentState) :
  counters_kept state (consume_feedback state).
Proof.
  unfold consume_feedback.
  destruct (quality_validation state) as [qv|]; [|apply counters_kept_refl].
  destruct (feedback qv) as [text|]; [|apply counters_kept_refl].
  destruct (Py.truthy_str text); [|apply counters_kept_refl].
  split; reflexivity.
Qed.

(** C8 (counterexample).  The files of the vector store cannot be removed
    at first, so [vector_store.clear] raises three times before the document
    stage succeeds: the three stage-local retries take the counter the graph
    reads from 0 to 3.  With a Rejected report the graph retries at 0 and
    finishes at 3, so the run ends after a single scoring pass with its
    Rejected report: the stage-local retries have used up the budget of the
    pipeline-level loop. *)
Lemma C8_counterexample :
  (fst (DataGathererAgent.execute locked_store_env (world_of with_document)) = Ok tt
   /\ retry_count
        (w_state (snd (DataGathererAgent.execute locked_store_env
                         (world_of with_document)))) = 0%Z
   /\ fst (DocumentAnalystAgent.execute locked_store_env
             (snd (DataGathererAgent.execute locked_store_env (world_of with_document))))
      = Ok tt
   /\ retry_count
        (w_state
           (snd (DocumentAnalystAgent.execute locked_store_env
                   (snd (DataGathererAgent.execute locked_store_env
                           (world_of with_document))))))
      = 3%Z)
  /\ (CreditAnalysisGraph._should_retry_analysis rejected_state = CreditAnalysisGraph.retry
      /\ CreditAnalysisGraph._should_retry_analysis (set_retry_count 3 rejected_state)
         = CreditAnalysisGraph.finish)
  /\ (fst (fst (CreditAnalysisGraph.analyze_credit locked_store_env
                  CreditAnalysisGraph.default_recursion_limit sample_cnpj
                  [empty_document] "test-123"))
      = Ok tt
      /\ scoring_passes
           (snd (CreditAnalysisGraph.analyze_credit locked_store_env
                   CreditAnalysisGraph.default_recursion_limit sample_cnpj
                   [empty_document] "test-123"))
         = 1%nat
      /\ option_map status
           (quality_validation
              (w_state
                 (snd (fst (CreditAnalysisGraph.analyze_credit locked_store_env
                              CreditAnalysisGraph.default_recursion_limit sample_cnpj
                              [empty_document] "test-123")))))
         = Some REJECTED).
Proof. repeat split. Qed.

(** C8 (amended).  The stage-local retry and the pipeline-level retry share
    one counter: both decisions compare [retry_count] with [max_retries];
    a stage-local retry with budget left adds one to it before the stage
    runs again, and with the budget spent the error is raised with the
    counter as it was; and no node of the graph ever decreases it or
    changes the ceiling. *)
Theorem C8_one_shared_retry_counter :
  forall (env : Env) (name : string) (execute : M unit) (error : Py.exn)
         (n : CreditAnalysisGraph.node) (w : World),
    (BaseAgent.should_retry (w_state w) = true
     <-> (retry_count (w_state w) < max_retries (w_state w))%Z)
    /\ (forall qv : QualityValidation,
           quality_validation (w_state w) = Some qv -> status qv = REJECTED ->
           (CreditAnalysisGraph._should_retry_analysis (w_state w)
            = CreditAnalysisGraph.retry
            <-> (retry_count (w_state w) < max_retries (w_state w))%Z))
    /\ (BaseAgent.should_retry (w_state w) = true ->
        exists w1,
          BaseAgent.handle_error name execute error w = execute w1
          /\ retry_count (w_state w1) = (retry_count (w_state w) + 1)%Z
          /\ max_retries (w_state w1) = max_retries (w_state w))
    /\ (BaseAgent.should_retry (w_state w) = false ->
        exists w1,
          BaseAgent.handle_error name execute error w = (Raise error, w1)
          /\ retry_count (w_state w1) = retry_count (w_state w)
          /\ max_retries (w_state w1) = max_retries (w_state w))
    /\ counters_grow (w_state w) (w_state (snd (CreditAnalysisGraph.run_node env n w))).
Proof.
  intros env name execute error n w.
  split; [apply should_retry_iff|].
  split; [intros qv; apply should_retry_analysis_iff|].
  split; [apply handle_error_retries|].
  split; [apply handle_error_exhausted | apply run_node_grows].
Qed.

Lemma C8_one_shared_retry_counter_witness :
  (CreditAnalysisGraph._should_retry_analysis rejected_state = CreditAnalysisGraph.retry
   <-> (retry_count rejected_state < max_retries rejected_state)%Z)
  /\ (exists w1,
         BaseAgent.handle_error "DocumentAnalyst" (ret tt)
           (Py.ExternalError "Permission denied") (world_of rejected_state) = ret tt w1
         /\ retry_count (w_state w1) = (retry_count rejected_state + 1)%Z
         /\ max_retries (w_state w1) = max_retries rejected_state)
  /\ counters_grow rejected_state
       (w_state (snd (CreditAnalysisGraph.run_node locked_store_env
                        CreditAnalysisGraph.document_analyst (world_of rejected_state)))).
Proof.
  destruct (C8_one_shared_retry_counter locked_store_env "DocumentAnalyst" (ret tt)
              (Py.ExternalError "Permission denied") CreditAnalysisGraph.document_analyst
              (world_of rejected_state))
    as (_ & Hdecision & Hretry & _ & Hgrow).
  split; [exact (Hdecision _ eq_refl eq_refl)|].
  split; [exact (Hretry eq_refl) | exact Hgrow].
Defined.
